(** * Computational Equivalence Engine

    A shallow embedding of [computational_equivalence_engine.py]: the
    three-gate decision tree of [ComputationalEquivalenceEngine.analyze],
    its two finalizers, the objective-overlap heuristic and the standalone
    [calculate_convergence_vector].

    Modelling choices.
    - A Python [float] is an IEEE 754 binary64 value, i.e. a primitive
      [float]; a decimal literal denotes the nearest binary64 value in both
      languages.
    - A Python [str] is a [string]; literals are UTF-8 encoded.  The
      methods [str.lower] and [str.split] belong to the interpreter, not
      to the repository: the engine and every general theorem are stated
      over an arbitrary pair of such functions (the class [StrOps]), so
      they hold of the interpreter's own.  Concrete runs, on ASCII text,
      use the ASCII functions of [PyStr], which are Python's on such text.
    - A Python [set] of strings is a [gset string].
    - The engine's only state, [self.analysis_log], is threaded explicitly;
      exceptions are a sum type.  The monad [Engine] combines both. *)

From Stdlib Require Import ZArith List String Ascii Bool Lia Floats DecimalString.
From stdpp Require Import base strings gmap.

Set Warnings "-inexact-float".
Local Open Scope string_scope.

(** ** Python strings *)

Module PyStr.

(** [str.lower] restricted to ASCII text: the letters A-Z move to a-z. *)
Definition lower_char_ascii (c : ascii) : ascii :=
  let n := N_of_ascii c in
  if (65 <=? n)%N && (n <=? 90)%N then ascii_of_N (n + 32) else c.

Fixpoint lower_ascii (s : string) : string :=
  match s with
  | EmptyString => EmptyString
  | String c r => String (lower_char_ascii c) (lower_ascii r)
  end.

(** The white space of ASCII text as [str.split] with no argument sees
    it: tab, line feed, vertical tab, form feed, carriage return, the four
    separators 0x1c-0x1f and the space. *)
Definition is_space_ascii (c : ascii) : bool :=
  let n := N_of_ascii c in
  ((9 <=? n)%N && (n <=? 13)%N) || ((28 <=? n)%N && (n <=? 32)%N).

Definition flush (cur : string) : list string :=
  match cur with
  | EmptyString => []
  | _ => [cur]
  end.

(** [split_from cur s]: [cur] is the token read so far. *)
Fixpoint split_from (cur s : string) : list string :=
  match s with
  | EmptyString => flush cur
  | String c r =>
      if is_space_ascii c then (flush cur ++ split_from EmptyString r)%list
      else split_from (cur +:+ String c EmptyString) r
  end.

(** [s.split()] restricted to ASCII text: the maximal runs of non-space
    characters, in order. *)
Definition split_ascii (s : string) : list string := split_from EmptyString s.

(** [str(n)] for a non-negative integer. *)
Definition of_N (n : N) : string := NilZero.string_of_uint (N.to_uint n).
Definition of_nat (n : nat) : string := of_N (N.of_nat n).

(** [str(b)] for a boolean. *)
Definition of_bool (b : bool) : string := if b then "True" else "False".

(** ["sep".join(l)] *)
Fixpoint join (sep : string) (l : list string) : string :=
  match l with
  | [] => ""
  | [x] => x
  | x :: r => x +:+ sep +:+ join sep r
  end.

(** [pat in s] *)
Definition contains (pat s : string) : Prop :=
  exists pre post : string, s = pre +:+ pat +:+ post.

End PyStr.

(** ** The string methods of the interpreter

    [str.lower] and [str.split] are Python's own (Unicode case mapping and
    Unicode white space): the engine takes them as given.  [ascii_ops] is
    their restriction to ASCII text, for concrete runs on such text. *)

Class StrOps : Type := {
  str_lower : string -> string;
  str_split : string -> list string
}.

Definition ascii_ops : StrOps :=
  {| str_lower := PyStr.lower_ascii; str_split := PyStr.split_ascii |}.

(** ** Exceptions *)

Inductive exn : Type :=
| ZeroDivisionError
| OverflowError
| KeyError.

(** ** Python floats and integer true division *)

Module PyFloat.

Definition sign_text (s : bool) : string := if s then "-" else "".

(** The integer nearest to [n / 2^k], ties to the even one. *)
Definition round_half_even_shr (n : N) (k : N) : N :=
  let d := N.shiftl 1 k in
  let q := (n / d)%N in
  let r := (n mod d)%N in
  match (2 * r ?= d)%N with
  | Lt => q
  | Gt => (q + 1)%N
  | Eq => if N.even q then q else (q + 1)%N
  end.

(** The number of tenths nearest to [m * 2^e]. *)
Definition tenths (m : positive) (e : Z) : N :=
  match e with
  | Z0 => (10 * Npos m)%N
  | Zpos p => N.shiftl (10 * Npos m) (Npos p)
  | Zneg p => round_half_even_shr (10 * Npos m) (Npos p)
  end.

(** [format(x, ".1f")]: one digit after the point, correctly rounded
    from the exact binary value. *)
Definition format_1f (x : float) : string :=
  match Prim2SF x with
  | S754_nan => "nan"
  | S754_infinity s => sign_text s +:+ "inf"
  | S754_zero s => sign_text s +:+ "0.0"
  | S754_finite s m e =>
      let t := tenths m e in
      sign_text s +:+ PyStr.of_N (t / 10) +:+ "." +:+ PyStr.of_N (t mod 10)
  end.

Definition Z2SF (z : Z) : spec_float :=
  match z with
  | Z0 => S754_zero false
  | Zpos p => S754_finite false p 0
  | Zneg p => S754_finite true p 0
  end.

(** [a / b] on Python integers: the correctly rounded quotient. *)
Definition int_true_div (a b : Z) : exn + float :=
  if (b =? 0)%Z then inl ZeroDivisionError
  else
    match SFdiv prec emax (Z2SF a) (Z2SF b) with
    | S754_infinity _ => inl OverflowError
    | q => inr (SF2Prim q)
    end.

End PyFloat.

(** ** Data model *)

Inductive EquivalenceLevel : Type :=
| TOTAL
| FUNCTIONAL_STRONG
| FUNCTIONAL_STANDARD
| FUNCTIONAL_WEAK
| PARTIAL_STRONG
| PARTIAL_STANDARD
| PARTIAL_WEAK
| NO_DIRECT.

(** The value of each member of the enumeration. *)
Definition value (l : EquivalenceLevel) : string :=
  match l with
  | TOTAL => "Total Legal Equivalent"
  | FUNCTIONAL_STRONG => "Strong Functional Equivalent"
  | FUNCTIONAL_STANDARD => "Standard Functional Equivalent"
  | FUNCTIONAL_WEAK => "Weak Functional Equivalent"
  | PARTIAL_STRONG => "Strong Partial Equivalent"
  | PARTIAL_STANDARD => "Standard Partial Equivalent"
  | PARTIAL_WEAK => "Weak Partial Equivalent"
  | NO_DIRECT => "No Direct Legal Equivalent"
  end.

Record LegalConcept : Type := {
  name : string;
  jurisdiction : string;
  constituent_elements : list string;
  regulatory_objective : string
}.

Record FunctionalTest : Type := {
  fact_pattern : string;
  reliability_rate : float;
  procedural_friction : string;
  iteration_threshold : Z
}.

Record EquivalenceResult : Type := {
  distance_score : float;
  level : EquivalenceLevel;
  confidence_interval : string;
  rationale : string;
  step_reached : Z
}.

(** The dictionaries the three gates return.  A key that only one branch
    of a gate sets is an [option]: reading it goes through [getitem]. *)
Record Step1Result : Type := {
  classification : string;
  provisional_score : float;
  morphology_match : option nat;
  teleology_match : option bool;
  step1_rationale : string
}.

Record Step2Result : Type := {
  outcomes_converge : bool;
  functional_score : option float;
  strength : option string;
  interval : option string;
  step2_rationale : string
}.

Record Step3Result : Type := {
  perfect_substitution : bool;
  step3_rationale : string
}.

(** ** The engine monad: the analysis log as state, exceptions as results *)

Definition Engine (A : Type) : Type := list string -> (exn + A) * list string.

Definition ret {A : Type} (a : A) : Engine A := fun log => (inr a, log).

Definition raise {A : Type} (e : exn) : Engine A := fun log => (inl e, log).

Definition bind {A B : Type} (m : Engine A) (k : A -> Engine B) : Engine B :=
  fun log =>
    match m log with
    | (inl e, log') => (inl e, log')
    | (inr a, log') => k a log'
    end.

(** A computation that may raise but does not touch the log. *)
Definition lift {A : Type} (r : exn + A) : Engine A := fun log => (r, log).

(** [self.analysis_log.append(line)] *)
Definition log_append (line : string) : Engine unit :=
  fun log => (inr tt, (log ++ [line])%list).

(** [self.analysis_log = []] *)
Definition log_reset : Engine unit := fun _ => (inr tt, []).

(** [d[key]] for a key that may be absent. *)
Definition getitem {A : Type} (o : option A) : Engine A :=
  match o with
  | Some a => ret a
  | None => raise KeyError
  end.

(** The stdpp monad notations [x ← m; k] and [m;; k] at [Engine]. *)
#[global] Instance Engine_ret : MRet Engine := @ret.
#[global] Instance Engine_bind : MBind Engine := fun A B k m => bind m k.

Section EngineDefinitions.

Context {ops : StrOps}.

(** ** The engine *)

(** [_objectives_substantially_overlap]: the share of common lowercase
    tokens, measured against the larger token set, exceeds one half. *)
Definition _objectives_substantially_overlap (obj_a obj_b : string) : exn + bool :=
  let keywords_a : gset string := list_to_set (str_split (str_lower obj_a)) in
  let keywords_b : gset string := list_to_set (str_split (str_lower obj_b)) in
  match PyFloat.int_true_div (Z.of_nat (size (keywords_a ∩ keywords_b)))
                             (Z.of_nat (Nat.max (size keywords_a) (size keywords_b))) with
  | inl e => inl e
  | inr overlap => inr (0.5 <? overlap)%float
  end.

(** Gate 1.  Each tier binds the score literal together with the text that
    the f-string of the log line prints for it. *)
Definition _step1_core_feature_filter (concept_a concept_b : LegalConcept)
  : Engine Step1Result :=
  log_append "=== STEP 1: PARTIAL EQUIVALENCY TEST ===";;
  let common_elements : gset string :=
    list_to_set (constituent_elements concept_a) ∩
    list_to_set (constituent_elements concept_b) in
  let morphology_match := size common_elements in
  teleology_match ←
    (if String.eqb (str_lower (regulatory_objective concept_a))
                   (str_lower (regulatory_objective concept_b))
     then ret true
     else lift (_objectives_substantially_overlap
                  (regulatory_objective concept_a)
                  (regulatory_objective concept_b)));
  log_append ("Morphological overlap: " +:+ PyStr.of_nat morphology_match
              +:+ " shared elements");;
  log_append ("Teleological match: " +:+ PyStr.of_bool teleology_match);;
  if Nat.eqb morphology_match 0 && negb teleology_match then
    log_append "RESULT: No basis for comparison (Category Error)";;
    ret {| classification := "NO_DIRECT";
           provisional_score := 3.0;
           morphology_match := None;
           teleology_match := None;
           step1_rationale :=
             "Concepts share neither structural elements nor regulatory objectives." |}
  else
    let '(provisional_score, score_text, strength) :=
      if Nat.leb 3 morphology_match then (2.0%float, "2.0", "Strong")
      else if Nat.leb 1 morphology_match then (2.5%float, "2.5", "Standard")
      else (2.9%float, "2.9", "Weak") in
    log_append ("RESULT: " +:+ strength +:+ " Partial Equivalent (provisional d = "
                +:+ score_text +:+ ")");;
    log_append "→ Proceeding to Step 2";;
    ret {| classification := "PARTIAL";
           provisional_score := provisional_score;
           morphology_match := Some morphology_match;
           teleology_match := Some teleology_match;
           step1_rationale :=
             strength +:+ " feature overlap detected ("
             +:+ PyStr.of_nat morphology_match
             +:+ " structural + teleological alignment)" |}.

(** [f"{functional_test.reliability_rate * 100:.1f}"] *)
Definition rate_percent (functional_test : FunctionalTest) : string :=
  PyFloat.format_1f (reliability_rate functional_test * 100)%float.

(** Gate 2.  The three trace lines are appended before the threshold is
    looked at. *)
Definition _step2_same_outcome_filter (functional_test : FunctionalTest)
  : Engine Step2Result :=
  log_append (String "010" "=== STEP 2: FUNCTIONAL EQUIVALENCY TEST ===");;
  log_append ("Fact pattern: " +:+ fact_pattern functional_test);;
  log_append ("Reliability rate: " +:+ rate_percent functional_test +:+ "%");;
  log_append ("Procedural friction: " +:+ procedural_friction functional_test);;
  if (reliability_rate functional_test <? 0.85)%float then
    log_append "RESULT: Outcomes diverge (reliability < 85%)";;
    ret {| outcomes_converge := false;
           functional_score := None;
           strength := None;
           interval := None;
           step2_rationale :=
             "Reliability rate (" +:+ rate_percent functional_test
             +:+ "%) below functional threshold" |}
  else
    let '(functional_score, score_text, strength, interval) :=
      if (0.95 <? reliability_rate functional_test)%float
         && String.eqb (procedural_friction functional_test) "low"
         && (iteration_threshold functional_test =? 1)%Z
      then (0.15%float, "0.15", "Strong (Constitutional)", "0.1-0.2")
      else if (0.95 <? reliability_rate functional_test)%float
              && String.eqb (procedural_friction functional_test) "high"
      then (0.35%float, "0.35", "Strong (Plenary)", "0.3-0.4")
      else if (0.90 <? reliability_rate functional_test)%float
      then (1.0%float, "1.0", "Standard", "0.5-1.4")
      else (1.7%float, "1.7", "Weak", "1.5-1.9") in
    log_append ("RESULT: Outcomes converge - " +:+ strength
                +:+ " Functional Equivalent (d = " +:+ score_text +:+ ")");;
    log_append "→ Proceeding to Step 3";;
    ret {| outcomes_converge := true;
           functional_score := Some functional_score;
           strength := Some strength;
           interval := Some interval;
           step2_rationale :=
             strength +:+ " functional match (reliability "
             +:+ rate_percent functional_test +:+ "%, "
             +:+ procedural_friction functional_test +:+ " friction)" |}.

(** Gate 3. *)
Definition _step3_perfect_substitution_filter
  (concept_a concept_b : LegalConcept) (functional_test : FunctionalTest)
  : Engine Step3Result :=
  log_append (String "010" "=== STEP 3: TOTAL EQUIVALENCY TEST ===");;
  let all_elements_match : bool :=
    bool_decide ((list_to_set (constituent_elements concept_a) : gset string)
                 = list_to_set (constituent_elements concept_b)) in
  let objectives_identical :=
    String.eqb (regulatory_objective concept_a) (regulatory_objective concept_b) in
  let zero_friction := String.eqb (procedural_friction functional_test) "low" in
  log_append ("All elements identical: " +:+ PyStr.of_bool all_elements_match);;
  log_append ("Objectives identical: " +:+ PyStr.of_bool objectives_identical);;
  log_append ("Zero procedural friction: " +:+ PyStr.of_bool zero_friction);;
  if all_elements_match && objectives_identical && zero_friction then
    log_append "RESULT: Perfect substitution confirmed (Total Equivalent)";;
    ret {| perfect_substitution := true;
           step3_rationale :=
             "Concepts are superimposable - perfect one-to-one match in all dimensions" |}
  else
    log_append "RESULT: Doctrinal divergence detected (not Total Equivalent)";;
    ret {| perfect_substitution := false;
           step3_rationale :=
             "Concepts achieve same outcome but remain doctrinally distinct" |}.

Definition _finalize_partial_equivalent (score : float) (rationale : string)
  : EquivalenceResult :=
  let '(level, interval) :=
    if (score <=? 2.1)%float then (PARTIAL_STRONG, "2.0-2.1")
    else if (score <=? 2.7)%float then (PARTIAL_STANDARD, "2.2-2.7")
    else (PARTIAL_WEAK, "2.8-2.9") in
  {| distance_score := score;
     level := level;
     confidence_interval := "d = " +:+ interval;
     rationale := rationale +:+ " (Structural overlap but functional divergence)";
     step_reached := 2 |}.

Definition _finalize_functional_equivalent (score : float) (rationale : string)
  : EquivalenceResult :=
  let '(level, interval) :=
    if (score <=? 0.4)%float then (FUNCTIONAL_STRONG, "0.1-0.4")
    else if (score <=? 1.4)%float then (FUNCTIONAL_STANDARD, "0.5-1.4")
    else (FUNCTIONAL_WEAK, "1.5-1.9") in
  {| distance_score := score;
     level := level;
     confidence_interval := "d = " +:+ interval;
     rationale := rationale +:+ " (Same practical outcome despite formal differences)";
     step_reached := 3 |}.

(** The entry point. *)
Definition analyze (concept_a concept_b : LegalConcept)
  (functional_test : option FunctionalTest) : Engine EquivalenceResult :=
  log_reset;;
  step1_result ← _step1_core_feature_filter concept_a concept_b;
  if String.eqb (classification step1_result) "NO_DIRECT" then
    ret {| distance_score := 3.0;
           level := NO_DIRECT;
           confidence_interval := "d = 3.0";
           rationale := step1_rationale step1_result;
           step_reached := 1 |}
  else
    let partial_score := provisional_score step1_result in
    match functional_test with
    | None =>
        ret (_finalize_partial_equivalent partial_score (step1_rationale step1_result))
    | Some functional_test =>
        step2_result ← _step2_same_outcome_filter functional_test;
        if negb (outcomes_converge step2_result) then
          ret (_finalize_partial_equivalent partial_score (step2_rationale step2_result))
        else
          functional_score ← getitem (functional_score step2_result);
          step3_result ←
            _step3_perfect_substitution_filter concept_a concept_b functional_test;
          if perfect_substitution step3_result then
            ret {| distance_score := 0.0;
                   level := TOTAL;
                   confidence_interval := "d = 0.0";
                   rationale := step3_rationale step3_result;
                   step_reached := 3 |}
          else
            ret (_finalize_functional_equivalent functional_score
                   (step2_rationale step2_result))
    end.

Definition get_analysis_log (log : list string) : string :=
  PyStr.join (String "010" "") log.

(** The engine as the caller sees it: [run_analyze] gives what the call
    returns or raises, [log_after] the log it leaves behind. *)
Definition run_analyze (concept_a concept_b : LegalConcept)
  (functional_test : option FunctionalTest) (log : list string)
  : exn + EquivalenceResult :=
  fst (analyze concept_a concept_b functional_test log).

Definition log_after (concept_a concept_b : LegalConcept)
  (functional_test : option FunctionalTest) (log : list string) : list string :=
  snd (analyze concept_a concept_b functional_test log).

(** ** The convergence vector *)

Definition calculate_convergence_vector (d_t1 d_t2 : float) : float * string :=
  let v_legal := (d_t1 - d_t2)%float in
  let interpretation :=
    if (0 <? v_legal)%float then
      let magnitude := if (1.5 <=? abs v_legal)%float then "High" else "Incremental" in
      "Legal Convergence (+" +:+ PyFloat.format_1f v_legal +:+ ") - "
      +:+ magnitude +:+ " harmonization"
    else if (v_legal <? 0)%float then
      let magnitude := if (1.5 <=? abs v_legal)%float then "High" else "Incremental" in
      "Legal Divergence (" +:+ PyFloat.format_1f v_legal +:+ ") - "
      +:+ magnitude +:+ " drift"
    else "Stable Equivalence (0.0) - No net change or Feature Shift" in
  (v_legal, interpretation).

(** ** The vocabulary of the specification *)

(** [lo <= d <= hi] under the comparisons of binary64. *)
Definition between (lo d hi : float) : Prop :=
  (lo <=? d)%float = true /\ (d <=? hi)%float = true.

(** The sub-range of the distance scale that belongs to each level. *)
Definition score_in_level_range (l : EquivalenceLevel) (d : float) : Prop :=
  match l with
  | NO_DIRECT => d = 3.0%float
  | TOTAL => d = 0.0%float
  | PARTIAL_STRONG => between 2.0 d 2.1
  | PARTIAL_STANDARD => between 2.2 d 2.7
  | PARTIAL_WEAK => between 2.8 d 2.9
  | FUNCTIONAL_STRONG => between 0.1 d 0.4
  | FUNCTIONAL_STANDARD => between 0.5 d 1.4
  | FUNCTIONAL_WEAK => between 1.5 d 1.9
  end.

(** The confidence-interval label that belongs to each level. *)
Definition level_interval (l : EquivalenceLevel) : string :=
  match l with
  | NO_DIRECT => "d = 3.0"
  | TOTAL => "d = 0.0"
  | PARTIAL_STRONG => "d = 2.0-2.1"
  | PARTIAL_STANDARD => "d = 2.2-2.7"
  | PARTIAL_WEAK => "d = 2.8-2.9"
  | FUNCTIONAL_STRONG => "d = 0.1-0.4"
  | FUNCTIONAL_STANDARD => "d = 0.5-1.4"
  | FUNCTIONAL_WEAK => "d = 1.5-1.9"
  end.

Definition is_partial_level (l : EquivalenceLevel) : Prop :=
  l = PARTIAL_STRONG \/ l = PARTIAL_STANDARD \/ l = PARTIAL_WEAK.

(** The number of constituent elements two concepts share. *)
Definition shared_elements (concept_a concept_b : LegalConcept) : nat :=
  size ((list_to_set (constituent_elements concept_a) : gset string)
        ∩ list_to_set (constituent_elements concept_b)).

(** What Gate 1 binds to [teleology_match]: equal lowercase objectives
    settle it, otherwise the heuristic decides, or raises. *)
Definition teleology (concept_a concept_b : LegalConcept) : exn + bool :=
  if String.eqb (str_lower (regulatory_objective concept_a))
                (str_lower (regulatory_objective concept_b))
  then inr true
  else _objectives_substantially_overlap
         (regulatory_objective concept_a) (regulatory_objective concept_b).

(** Gate 1, as [analyze] runs it (on the log it has just reset), returns
    the dictionary [s1]. *)
Definition gate1_returns (concept_a concept_b : LegalConcept) (s1 : Step1Result)
  : Prop :=
  fst (_step1_core_feature_filter concept_a concept_b []) = inr s1.

(** ** Sample data *)

Definition amparo : LegalConcept :=
  {| name := "Recurso de Amparo";
     jurisdiction := "Mexico";
     constituent_elements :=
       ["standing"; "constitutional violation"; "judicial review"];
     regulatory_objective := "Protect constitutional rights" |}.

(** The same elements in another order, one of them twice, and the
    objective in lower case. *)
Definition tutela : LegalConcept :=
  {| name := "Accion de Tutela";
     jurisdiction := "Colombia";
     constituent_elements :=
       ["judicial review"; "standing"; "constitutional violation"; "standing"];
     regulatory_objective := "protect constitutional rights" |}.

Definition consideration : LegalConcept :=
  {| name := "Consideration";
     jurisdiction := "England";
     constituent_elements := ["bargain"; "exchange"];
     regulatory_objective := "Enforce private promises" |}.

(** One shared element with [amparo], an unrelated objective. *)
Definition judicial_review : LegalConcept :=
  {| name := "Judicial Review";
     jurisdiction := "England";
     constituent_elements := ["standing"; "leave"];
     regulatory_objective := "Control administrative action" |}.

(** No shared element with [amparo], an objective that overlaps its own in
    two tokens out of three. *)
Definition ombudsman : LegalConcept :=
  {| name := "Ombudsman complaint";
     jurisdiction := "Sweden";
     constituent_elements := ["complaint"];
     regulatory_objective := "Safeguard constitutional rights" |}.

(** Two concepts whose objectives hold no token at all. *)
Definition blank_objective : LegalConcept :=
  {| name := "A";
     jurisdiction := "X";
     constituent_elements := ["standing"];
     regulatory_objective := "" |}.

Definition space_objective : LegalConcept :=
  {| name := "B";
     jurisdiction := "Y";
     constituent_elements := ["standing"];
     regulatory_objective := " " |}.

(** The same two objectives on concepts without a common element. *)
Definition blank_writ : LegalConcept :=
  {| name := "C";
     jurisdiction := "X";
     constituent_elements := ["writ"];
     regulatory_objective := "" |}.

Definition space_decree : LegalConcept :=
  {| name := "D";
     jurisdiction := "Y";
     constituent_elements := ["decree"];
     regulatory_objective := " " |}.

Definition sample_test (rate : float) (friction : string) (n : Z) : FunctionalTest :=
  {| fact_pattern := "Detention without warrant";
     reliability_rate := rate;
     procedural_friction := friction;
     iteration_threshold := n |}.

(** ** Further vocabulary *)

Definition is_functional_level (l : EquivalenceLevel) : Prop :=
  l = FUNCTIONAL_STRONG \/ l = FUNCTIONAL_STANDARD \/ l = FUNCTIONAL_WEAK.

(** [s.startswith(pre)] and [s.endswith(suf)] *)
Definition starts_with (pre s : string) : Prop :=
  exists post : string, s = pre +:+ post.

Definition ends_with (suf s : string) : Prop :=
  exists pre : string, s = pre +:+ suf.

(** The token set of an objective, as the heuristic builds it. *)
Definition keywords (obj : string) : gset string :=
  list_to_set (str_split (str_lower obj)).

(** The three values a result carries besides its texts. *)
Definition verdict (res : EquivalenceResult) : EquivalenceLevel * float * Z :=
  (level res, distance_score res, step_reached res).

(** The word Gate 1 and Gate 2 use for the tier of each level. *)
Definition tier_word (l : EquivalenceLevel) : string :=
  match l with
  | PARTIAL_STRONG | FUNCTIONAL_STRONG => "Strong"
  | PARTIAL_STANDARD | FUNCTIONAL_STANDARD => "Standard"
  | PARTIAL_WEAK | FUNCTIONAL_WEAK => "Weak"
  | TOTAL => "Total"
  | NO_DIRECT => "No Direct"
  end.

(** The nine verdicts the engine can reach. *)
Definition verdict_table : list (EquivalenceLevel * float * Z) :=
  [ (NO_DIRECT, 3.0%float, 1%Z);
    (PARTIAL_STRONG, 2.0%float, 2%Z);
    (PARTIAL_STANDARD, 2.5%float, 2%Z);
    (PARTIAL_WEAK, 2.9%float, 2%Z);
    (TOTAL, 0.0%float, 3%Z);
    (FUNCTIONAL_STRONG, 0.15%float, 3%Z);
    (FUNCTIONAL_STRONG, 0.35%float, 3%Z);
    (FUNCTIONAL_STANDARD, 1.0%float, 3%Z);
    (FUNCTIONAL_WEAK, 1.7%float, 3%Z) ].

(** [amparo] under another name, with its elements in another order and
    one of them listed twice. *)
Definition amparo_recast : LegalConcept :=
  {| name := "Juicio de Amparo";
     jurisdiction := "Spain";
     constituent_elements :=
       ["judicial review"; "standing"; "judicial review";
        "constitutional violation"];
     regulatory_objective := "Protect constitutional rights" |}.

End EngineDefinitions.

(** ** Order facts of binary64 comparisons *)

Module FloatOrder.

Lemma SFcompare_antisym (x y : spec_float) :
  SFcompare y x = option_map CompOpp (SFcompare x y).
Proof.
  destruct x as [sx | sx | | sx mx ex], y as [sy | sy | | sy my ey];
    try (destruct sx); try (destruct sy); try reflexivity.
  all: simpl; rewrite (Z.compare_antisym ex ey);
    destruct (ex ?= ey)%Z; simpl; try reflexivity.
  all: change (Pos.compare_cont Eq my mx) with (my ?= mx)%positive;
    change (Pos.compare_cont Eq mx my) with (mx ?= my)%positive;
    rewrite (Pos.compare_antisym mx my);
    destruct (mx ?= my)%positive; reflexivity.
Qed.

Lemma leb_true_ltb_false (x y : float) :
  (x <=? y)%float = true -> (y <? x)%float = false.
Proof.
  rewrite leb_spec, ltb_spec. unfold SFleb, SFltb.
  rewrite (SFcompare_antisym (Prim2SF x) (Prim2SF y)).
  destruct (SFcompare (Prim2SF x) (Prim2SF y)) as [[ | | ] | ];
    simpl; congruence.
Qed.

Lemma ltb_true_ltb_false (x y : float) :
  (x <? y)%float = true -> (y <? x)%float = false.
Proof.
  rewrite !ltb_spec. unfold SFltb.
  rewrite (SFcompare_antisym (Prim2SF x) (Prim2SF y)).
  destruct (SFcompare (Prim2SF x) (Prim2SF y)) as [[ | | ] | ];
    simpl; congruence.
Qed.

Lemma eqb_true_ltb_false (x y : float) :
  (x =? y)%float = true -> (x <? y)%float = false /\ (y <? x)%float = false.
Proof.
  rewrite FloatAxioms.eqb_spec, !ltb_spec. unfold SFeqb, SFltb.
  rewrite (SFcompare_antisym (Prim2SF x) (Prim2SF y)).
  destruct (SFcompare (Prim2SF x) (Prim2SF y)) as [[ | | ] | ];
    simpl; intuition congruence.
Qed.

(** The order of two finite values of one sign: exponent first, then
    mantissa. *)
Lemma lex_lt (e1 e2 : Z) (m1 m2 : positive) :
  match (e1 ?= e2)%Z with
  | Lt => Lt
  | Gt => Gt
  | Eq => Pos.compare_cont Eq m1 m2
  end = Lt <-> (e1 < e2)%Z \/ (e1 = e2 /\ (m1 < m2)%positive).
Proof.
  change (Pos.compare_cont Eq m1 m2) with (m1 ?= m2)%positive.
  destruct (Z.compare_spec e1 e2); destruct (Pos.compare_spec m1 m2);
    split; intros; try discriminate; try reflexivity; lia.
Qed.

Lemma lex_gt (e1 e2 : Z) (m1 m2 : positive) :
  match (e1 ?= e2)%Z with
  | Lt => Gt
  | Gt => Lt
  | Eq => CompOpp (Pos.compare_cont Eq m1 m2)
  end = Lt <-> (e2 < e1)%Z \/ (e1 = e2 /\ (m2 < m1)%positive).
Proof.
  change (Pos.compare_cont Eq m1 m2) with (m1 ?= m2)%positive.
  destruct (Z.compare_spec e1 e2); destruct (Pos.compare_spec m1 m2);
    simpl; split; intros; try discriminate; try reflexivity; lia.
Qed.

Lemma SFltb_trans (x y z : spec_float) :
  SFltb x y = true -> SFltb y z = true -> SFltb x z = true.
Proof.
  unfold SFltb.
  destruct x as [sx | sx | | sx mx ex], y as [sy | sy | | sy my ey],
    z as [sz | sz | | sz mz ez];
    try (destruct sx); try (destruct sy); try (destruct sz);
    simpl; try congruence.
  all: intros Hxy Hyz.
  all: match goal with
       | |- match ?c with _ => _ end = true =>
           assert (Hc : c = Lt); [ | rewrite Hc; reflexivity ]
       end.
  all: match type of Hxy with
       | match ?c with _ => _ end = true =>
           assert (Hxy' : c = Lt) by (destruct c; congruence)
       end.
  all: match type of Hyz with
       | match ?c with _ => _ end = true =>
           assert (Hyz' : c = Lt) by (destruct c; congruence)
       end.
  all: first [ apply lex_lt; apply lex_lt in Hxy'; apply lex_lt in Hyz'; lia
             | apply lex_gt; apply lex_gt in Hxy'; apply lex_gt in Hyz'; lia ].
Qed.

Lemma ltb_trans (x y z : float) :
  (x <? y)%float = true -> (y <? z)%float = true -> (x <? z)%float = true.
Proof. rewrite !ltb_spec. apply SFltb_trans. Qed.

End FloatOrder.

(** ** Running the engine *)

Ltac run_engine :=
  cbv beta iota zeta delta
    [mbind mret Engine_bind Engine_ret bind ret raise lift log_append
     log_reset getitem fst snd].

Section EngineProperties.

Context {ops : StrOps}.

(** What a dictionary returned by Gate 1 looks like. *)
Lemma step1_inv (a b : LegalConcept) (log log' : list string) (s1 : Step1Result) :
  _step1_core_feature_filter a b log = (inr s1, log') ->
  (classification s1 = "NO_DIRECT" /\ shared_elements a b = 0
   /\ step1_rationale s1 =
        "Concepts share neither structural elements nor regulatory objectives.")
  \/ (classification s1 = "PARTIAL"
      /\ ((3 <= shared_elements a b /\ provisional_score s1 = 2.0%float)
          \/ (1 <= shared_elements a b < 3 /\ provisional_score s1 = 2.5%float)
          \/ (shared_elements a b = 0 /\ provisional_score s1 = 2.9%float))).
Proof.
  unfold _step1_core_feature_filter. fold (shared_elements a b).
  run_engine.
  destruct (str_lower (regulatory_objective a)
            =? str_lower (regulatory_objective b))%string.
  2: destruct (_objectives_substantially_overlap _ _) as [e | t];
       [ discriminate | ].
  all: destruct (Nat.eqb_spec (shared_elements a b) 0) as [E0 | E0];
       cbn [andb negb]; try destruct t; cbn [andb negb].
  all: try (intros [= <- _]; left; cbn; tauto).
  all: destruct (Nat.leb_spec 3 (shared_elements a b)) as [E3 | E3];
       [ | destruct (Nat.leb_spec 1 (shared_elements a b)) as [E1 | E1] ];
       intros [= <- _]; right; cbn; split; try reflexivity.
  all: first [ left; split; [lia | reflexivity]
             | right; left; split; [lia | reflexivity]
             | right; right; split; [lia | reflexivity] ].
Qed.

(** What Gate 1 returns does not depend on the log it appends to. *)
Lemma step1_result_log_indep (a b : LegalConcept) (log : list string) :
  fst (_step1_core_feature_filter a b log)
  = fst (_step1_core_feature_filter a b []).
Proof.
  unfold _step1_core_feature_filter. fold (shared_elements a b).
  run_engine.
  destruct (str_lower (regulatory_objective a)
            =? str_lower (regulatory_objective b))%string.
  2: destruct (_objectives_substantially_overlap _ _) as [e | t];
       [ reflexivity | ].
  all: destruct (shared_elements a b =? 0)%nat; cbn [andb negb];
       try destruct t; cbn [andb negb]; try reflexivity.
  all: destruct (3 <=? shared_elements a b)%nat;
       [ | destruct (1 <=? shared_elements a b)%nat ]; reflexivity.
Qed.

(** Gate 1 on a pair without common elements, without equal lowercase
    objectives and on which the heuristic says no. *)
Lemma step1_no_direct (a b : LegalConcept) (log : list string) :
  (list_to_set (constituent_elements a) : gset string)
    ∩ list_to_set (constituent_elements b) = ∅ ->
  str_lower (regulatory_objective a) <> str_lower (regulatory_objective b) ->
  _objectives_substantially_overlap
    (regulatory_objective a) (regulatory_objective b) = inr false ->
  exists s1 log',
    _step1_core_feature_filter a b log = (inr s1, log')
    /\ classification s1 = "NO_DIRECT".
Proof.
  intros Hempty Hlower Hoverlap.
  unfold _step1_core_feature_filter. run_engine.
  rewrite Hempty, size_empty.
  apply String.eqb_neq in Hlower. rewrite Hlower, Hoverlap.
  cbn [Nat.eqb andb negb]. eauto.
Qed.

(** Gate 1 on a pair with the same lowercase objective never calls the
    heuristic, and classifies the pair as PARTIAL. *)
Lemma step1_same_objective (a b : LegalConcept) (log : list string) :
  str_lower (regulatory_objective a) = str_lower (regulatory_objective b) ->
  exists s1 log',
    _step1_core_feature_filter a b log = (inr s1, log')
    /\ classification s1 = "PARTIAL".
Proof.
  intros Hlower.
  unfold _step1_core_feature_filter. fold (shared_elements a b). run_engine.
  apply String.eqb_eq in Hlower. rewrite Hlower.
  rewrite andb_false_r.
  destruct (3 <=? shared_elements a b)%nat;
    [ | destruct (1 <=? shared_elements a b)%nat ]; eauto.
Qed.

(** Passing Gate 1 is having a teleology test that returns, and a shared
    element or a positive teleology test. *)
Lemma gate1_partial_iff (a b : LegalConcept) :
  (exists s1 : Step1Result,
      gate1_returns a b s1 /\ classification s1 = "PARTIAL")
  <-> exists t : bool,
        teleology a b = inr t /\ (shared_elements a b <> 0 \/ t = true).
Proof.
  unfold gate1_returns, teleology, _step1_core_feature_filter.
  fold (shared_elements a b). run_engine.
  destruct (str_lower (regulatory_objective a)
            =? str_lower (regulatory_objective b))%string.
  2: destruct (_objectives_substantially_overlap _ _) as [e | t].
  2: { split; [ intros (s1 & H & _) | intros (t & H & _) ]; discriminate H. }
  all: destruct (Nat.eqb_spec (shared_elements a b) 0) as [E0 | E0];
       cbn [andb negb]; try destruct t; cbn [andb negb].
  all: try (destruct (3 <=? shared_elements a b)%nat;
            [ | destruct (1 <=? shared_elements a b)%nat ]).
  all: cbn [fst]; split;
       [ intros (s1 & [= <-] & Hc); try discriminate Hc; eauto
       | intros (t' & [= <-] & Hor); try (exfalso; intuition congruence);
         eauto ].
Qed.

(** Two objectives that differ in lower case and hold no token make
    Gate 1, and so [analyze], raise ZeroDivisionError. *)
Lemma analyze_raises_on_token_free_objectives
  (a b : LegalConcept) (ft : option FunctionalTest) (log : list string) :
  str_lower (regulatory_objective a) <> str_lower (regulatory_objective b) ->
  str_split (str_lower (regulatory_objective a)) = [] ->
  str_split (str_lower (regulatory_objective b)) = [] ->
  run_analyze a b ft log = inl ZeroDivisionError.
Proof.
  intros Hlower Ha Hb.
  unfold run_analyze, analyze, _step1_core_feature_filter,
    _objectives_substantially_overlap.
  run_engine.
  apply String.eqb_neq in Hlower. rewrite Hlower, Ha, Hb.
  reflexivity.
Qed.

(** The two classifications are different strings. *)
Lemma partial_is_not_no_direct : ("PARTIAL" =? "NO_DIRECT")%string = false.
Proof. reflexivity. Qed.

Lemma no_direct_is_no_direct : ("NO_DIRECT" =? "NO_DIRECT")%string = true.
Proof. reflexivity. Qed.

(** The level and the label the finalizers give to the scores of the
    gates. *)
Lemma finalize_partial_inv (score : float) (r : string) :
  score = 2.0%float \/ score = 2.5%float \/ score = 2.9%float ->
  let res := _finalize_partial_equivalent score r in
  score_in_level_range (level res) (distance_score res)
  /\ confidence_interval res = level_interval (level res)
  /\ is_partial_level (level res)
  /\ step_reached res = 2%Z.
Proof.
  unfold is_partial_level.
  intros [-> | [-> | ->]]; vm_compute; intuition congruence.
Qed.

Lemma finalize_functional_inv (score : float) (r : string) :
  score = 0.15%float \/ score = 0.35%float \/ score = 1.0%float
  \/ score = 1.7%float ->
  let res := _finalize_functional_equivalent score r in
  score_in_level_range (level res) (distance_score res)
  /\ confidence_interval res = level_interval (level res)
  /\ step_reached res = 3%Z.
Proof.
  intros [-> | [-> | [-> | ->]]]; vm_compute; intuition congruence.
Qed.

(** Every result [analyze] returns carries a score in the sub-range of its
    level and the label of its level. *)
Lemma analyze_result_shape (a b : LegalConcept) (ft : option FunctionalTest)
  (log : list string) (res : EquivalenceResult) :
  run_analyze a b ft log = inr res ->
  score_in_level_range (level res) (distance_score res)
  /\ confidence_interval res = level_interval (level res).
Proof.
  unfold run_analyze, analyze, _step2_same_outcome_filter,
    _step3_perfect_substitution_filter.
  run_engine.
  destruct (_step1_core_feature_filter a b []) as [[e | s1] l1] eqn:E1;
    [ discriminate | ].
  apply step1_inv in E1.
  destruct E1 as [(Hc & _ & _) | (Hc & Hs)]; rewrite Hc.
  - rewrite no_direct_is_no_direct. intros [= <-]. split; reflexivity.
  - rewrite partial_is_not_no_direct.
    assert (Hp : forall r,
               let res := _finalize_partial_equivalent (provisional_score s1) r in
               score_in_level_range (level res) (distance_score res)
               /\ confidence_interval res = level_interval (level res)).
    { intros r.
      destruct (finalize_partial_inv (provisional_score s1) r) as (H1 & H2 & _);
        [ tauto | split; assumption ]. }
    destruct ft as [ft | ]; [ | intros [= <-]; apply Hp ].
    destruct (reliability_rate ft <? 0.85)%float;
      [ cbn [negb]; intros [= <-]; apply Hp | ].
    destruct ((0.95 <? reliability_rate ft)%float
              && (procedural_friction ft =? "low")%string
              && (iteration_threshold ft =? 1)%Z);
      [ | destruct ((0.95 <? reliability_rate ft)%float
                    && (procedural_friction ft =? "high")%string);
          [ | destruct (0.90 <? reliability_rate ft)%float ] ].
    all: cbn [negb outcomes_converge functional_score step2_rationale].
    all: match goal with
         | |- context [ if ?c then _ else _ ] => destruct c
         end.
    all: intros [= <-]; try (split; reflexivity).
    all: match goal with
         | |- context [ _finalize_functional_equivalent ?x ?r ] =>
             destruct (finalize_functional_inv x r) as (H1 & H2 & _);
             [ tauto | split; assumption ]
         end.
Qed.

Lemma level_interval_inj (l1 l2 : EquivalenceLevel) :
  level_interval l1 = level_interval l2 -> l1 = l2.
Proof. destruct l1, l2; intros H; first [ reflexivity | discriminate H ]. Qed.

(** ** The claims *)

(** C1. For every result returned by [analyze], the distance score lies in
    the sub-range of its level: 3.0 for NO_DIRECT, 0.0 for TOTAL,
    [2.0, 2.1], [2.2, 2.7] and [2.8, 2.9] for the three partial levels,
    [0.1, 0.4], [0.5, 1.4] and [1.5, 1.9] for the three functional ones. *)
Theorem distance_score_in_level_range
  (a b : LegalConcept) (ft : option FunctionalTest) (log : list string)
  (res : EquivalenceResult) :
  run_analyze a b ft log = inr res ->
  score_in_level_range (level res) (distance_score res).
Proof. intros H. apply (analyze_result_shape a b ft log res H). Qed.

(** C10. For every result returned by [analyze], the confidence interval
    is the label of the level and of no other level: it is one of eight
    fixed strings, and each of them stands for exactly one level. *)
Theorem confidence_interval_determined_by_level
  (a b : LegalConcept) (ft : option FunctionalTest) (log : list string)
  (res : EquivalenceResult) :
  run_analyze a b ft log = inr res ->
  forall l : EquivalenceLevel,
    confidence_interval res = level_interval l <-> level res = l.
Proof.
  intros H l. destruct (analyze_result_shape a b ft log res H) as [_ Hci].
  rewrite Hci. split.
  - apply level_interval_inj.
  - intros ->. reflexivity.
Qed.

(** Where the heuristic returns: two concepts without a common
    constituent element, whose objectives are not equal in lower case and
    on which the overlap heuristic returns False, are classified NO_DIRECT
    with distance 3.0, interval "d = 3.0" and step 1, whatever functional
    test is supplied, or none. *)
Theorem analyze_no_direct
  (a b : LegalConcept) (ft : option FunctionalTest) (log : list string) :
  (list_to_set (constituent_elements a) : gset string)
    ∩ list_to_set (constituent_elements b) = ∅ ->
  str_lower (regulatory_objective a) <> str_lower (regulatory_objective b) ->
  _objectives_substantially_overlap
    (regulatory_objective a) (regulatory_objective b) = inr false ->
  exists res : EquivalenceResult,
    run_analyze a b ft log = inr res
    /\ level res = NO_DIRECT
    /\ distance_score res = 3.0%float
    /\ confidence_interval res = "d = 3.0"
    /\ step_reached res = 1%Z.
Proof.
  intros Hempty Hlower Hoverlap.
  destruct (step1_no_direct a b [] Hempty Hlower Hoverlap)
    as (s1 & l1 & Hrun & Hc).
  unfold run_analyze, analyze. run_engine.
  rewrite Hrun, Hc, no_direct_is_no_direct.
  eexists. repeat split; reflexivity.
Qed.

(** C4. Two concepts with the same set of constituent elements (empty or
    not) and the same objective, tested with reliability 0.97, low
    friction and an iteration threshold of 1, are classified TOTAL with
    distance 0.0 and step 3. *)
Theorem analyze_total_on_equal_concepts
  (a b : LegalConcept) (ft : FunctionalTest) (log : list string) :
  (list_to_set (constituent_elements a) : gset string)
    = list_to_set (constituent_elements b) ->
  regulatory_objective a = regulatory_objective b ->
  reliability_rate ft = 0.97%float ->
  procedural_friction ft = "low" ->
  iteration_threshold ft = 1%Z ->
  exists res : EquivalenceResult,
    run_analyze a b (Some ft) log = inr res
    /\ level res = TOTAL
    /\ distance_score res = 0.0%float
    /\ step_reached res = 3%Z.
Proof.
  intros Hset Hobj Hrate Hfriction Hiter.
  assert (Hlower : str_lower (regulatory_objective a)
                   = str_lower (regulatory_objective b))
    by (rewrite Hobj; reflexivity).
  destruct (step1_same_objective a b [] Hlower) as (s1 & l1 & Hrun & Hc).
  unfold run_analyze, analyze, _step2_same_outcome_filter,
    _step3_perfect_substitution_filter.
  run_engine.
  rewrite Hrun, Hc, partial_is_not_no_direct.
  rewrite Hrate, Hfriction, Hiter, Hset, Hobj.
  rewrite bool_decide_eq_true_2 by reflexivity.
  rewrite !String.eqb_refl.
  change (0.97 <? 0.85)%float with false.
  change (0.95 <? 0.97)%float with true.
  cbn [andb negb Z.eqb Pos.eqb outcomes_converge functional_score
       perfect_substitution].
  eexists. repeat split; reflexivity.
Qed.

(** X16. When Gate 1 returns and classifies the pair as PARTIAL, and the
    objectives are not the same string, a test with reliability 0.96, low
    friction and an iteration threshold of 1 gives FUNCTIONAL_STRONG with
    interval "d = 0.1-0.4" and distance 0.15, not TOTAL: Gate 3 compares
    the objectives exactly, whatever made Gate 1 accept them. *)
Theorem analyze_functional_strong_on_distinct_objectives
  (a b : LegalConcept) (s1 : Step1Result) (ft : FunctionalTest)
  (log : list string) :
  gate1_returns a b s1 ->
  classification s1 = "PARTIAL" ->
  regulatory_objective a <> regulatory_objective b ->
  reliability_rate ft = 0.96%float ->
  procedural_friction ft = "low" ->
  iteration_threshold ft = 1%Z ->
  exists res : EquivalenceResult,
    run_analyze a b (Some ft) log = inr res
    /\ level res = FUNCTIONAL_STRONG
    /\ confidence_interval res = "d = 0.1-0.4"
    /\ distance_score res = 0.15%float
    /\ level res <> TOTAL.
Proof.
  unfold gate1_returns.
  intros Hgate Hc Hobj Hrate Hfriction Hiter.
  unfold run_analyze, analyze, _step2_same_outcome_filter,
    _step3_perfect_substitution_filter.
  run_engine.
  destruct (_step1_core_feature_filter a b []) as [r1 l1].
  cbn [fst] in Hgate. subst r1.
  rewrite Hc, partial_is_not_no_direct.
  rewrite Hrate, Hfriction, Hiter.
  apply String.eqb_neq in Hobj. rewrite Hobj.
  rewrite !String.eqb_refl.
  change (0.96 <? 0.85)%float with false.
  change (0.95 <? 0.96)%float with true.
  destruct (bool_decide (list_to_set (constituent_elements a)
                         = list_to_set (constituent_elements b))).
  all: cbn [andb negb Z.eqb Pos.eqb outcomes_converge functional_score
            perfect_substitution].
  all: eexists; repeat split; try reflexivity.
  all: vm_compute; discriminate.
Qed.

(** X17. When Gate 1 returns and classifies the pair as anything but
    NO_DIRECT, and no functional test is supplied, [analyze] returns a
    partial level at step 2, by the number of shared elements: three or
    more give PARTIAL_STRONG and 2.0, one or two give PARTIAL_STANDARD and
    2.5, none (a match of the objectives only) gives PARTIAL_WEAK and
    2.9. *)
Theorem analyze_partial_without_functional_test
  (a b : LegalConcept) (s1 : Step1Result) (log : list string) :
  gate1_returns a b s1 ->
  classification s1 <> "NO_DIRECT" ->
  exists res : EquivalenceResult,
    run_analyze a b None log = inr res
    /\ step_reached res = 2%Z
    /\ is_partial_level (level res)
    /\ (3 <= shared_elements a b ->
        level res = PARTIAL_STRONG /\ distance_score res = 2.0%float)
    /\ (shared_elements a b = 1 \/ shared_elements a b = 2 ->
        level res = PARTIAL_STANDARD /\ distance_score res = 2.5%float)
    /\ (shared_elements a b = 0 ->
        level res = PARTIAL_WEAK /\ distance_score res = 2.9%float).
Proof.
  unfold gate1_returns, is_partial_level.
  intros Hgate Hc.
  unfold run_analyze, analyze. run_engine.
  destruct (_step1_core_feature_filter a b []) as [r1 l1] eqn:Hrun.
  cbn [fst] in Hgate. subst r1.
  apply step1_inv in Hrun.
  destruct Hrun as [(Hc' & _) | (Hc' & Hs)]; [ contradiction | ].
  rewrite Hc', partial_is_not_no_direct.
  eexists. split; [ reflexivity | ].
  destruct Hs as [(Hn & ->) | [(Hn & ->) | (Hn & ->)]].
  all: repeat split; intros; try (exfalso; lia).
  all: first [ vm_compute; reflexivity | vm_compute; tauto ].
Qed.

(** C2. When the reliability rate is at least 0.85, Gate 2 reports
    convergence and gives the functional score of the first rule that
    matches: above 0.95 with low friction and threshold 1, 0.15; else
    above 0.95 with high friction, 0.35; else above 0.90, 1.0; else 1.7.
    So a rate above 0.95 with standard friction, or with low friction and
    a threshold of 2 or more, gives 1.0, and the rates 0.90 and 0.85
    themselves give 1.7. *)
Theorem step2_score_precedence (ft : FunctionalTest) (log : list string) :
  (0.85 <=? reliability_rate ft)%float = true ->
  exists (s2 : Step2Result) (log' : list string) (score : float),
    _step2_same_outcome_filter ft log = (inr s2, log')
    /\ outcomes_converge s2 = true
    /\ functional_score s2 = Some score
    /\ let high := (0.95 <? reliability_rate ft)%float in
       let rule1 := high && (procedural_friction ft =? "low")%string
                    && (iteration_threshold ft =? 1)%Z in
       let rule2 := high && (procedural_friction ft =? "high")%string in
       let rule3 := (0.90 <? reliability_rate ft)%float in
       (rule1 = true -> score = 0.15%float)
       /\ (rule1 = false -> rule2 = true -> score = 0.35%float)
       /\ (rule1 = false -> rule2 = false -> rule3 = true ->
           score = 1.0%float)
       /\ (rule1 = false -> rule2 = false -> rule3 = false ->
           score = 1.7%float)
       /\ (high = true ->
           procedural_friction ft = "standard"
           \/ (procedural_friction ft = "low"
               /\ (2 <= iteration_threshold ft)%Z) ->
           score = 1.0%float)
       /\ (reliability_rate ft = 0.90%float
           \/ reliability_rate ft = 0.85%float ->
           score = 1.7%float).
Proof.
  intros Hge. apply FloatOrder.leb_true_ltb_false in Hge.
  assert (Htrans : (0.95 <? reliability_rate ft)%float = true ->
                   (0.90 <? reliability_rate ft)%float = true).
  { apply FloatOrder.ltb_trans. reflexivity. }
  assert (Hexact : reliability_rate ft = 0.90%float
                   \/ reliability_rate ft = 0.85%float ->
                   (0.95 <? reliability_rate ft)%float = false
                   /\ (0.90 <? reliability_rate ft)%float = false).
  { intros [-> | ->]; split; reflexivity. }
  assert (Hstd : procedural_friction ft = "standard" ->
                 (procedural_friction ft =? "low")%string = false
                 /\ (procedural_friction ft =? "high")%string = false).
  { intros ->. split; reflexivity. }
  assert (Hlow : procedural_friction ft = "low" ->
                 (procedural_friction ft =? "high")%string = false).
  { intros ->. reflexivity. }
  assert (Hiter : (2 <= iteration_threshold ft)%Z ->
                  (iteration_threshold ft =? 1)%Z = false).
  { intros. apply Z.eqb_neq. lia. }
  unfold _step2_same_outcome_filter. run_engine. rewrite Hge.
  destruct (0.95 <? reliability_rate ft)%float,
    (procedural_friction ft =? "low")%string,
    (iteration_threshold ft =? 1)%Z,
    (procedural_friction ft =? "high")%string,
    (0.90 <? reliability_rate ft)%float.
  all: cbn [andb].
  all: eexists _, _, _.
  all: split; [ reflexivity | ]; split; [ reflexivity | ];
       split; [ reflexivity | ].
  all: repeat split; intros; try reflexivity; try discriminate.
  all: try (specialize (Htrans eq_refl); discriminate).
  all: intuition discriminate.
Qed.

(** C8, as the code has it. When the reliability rate is below 0.85, a
    negative one included, Gate 2 reports that the outcomes do not
    converge, and [analyze], on a pair that passed Gate 1, returns the
    partial result finalized from Gate 1's provisional score, at step 2.
    That result depends on the rate alone among the fields of the test;
    the log does not depend on the iteration threshold, and it records the
    friction in a line of its own. *)
Theorem analyze_nonconvergent_partial
  (a b : LegalConcept) (s1 : Step1Result) (ft : FunctionalTest)
  (log : list string) :
  (reliability_rate ft <? 0.85)%float = true ->
  gate1_returns a b s1 ->
  classification s1 = "PARTIAL" ->
  (exists (s2 : Step2Result) (log' : list string),
      _step2_same_outcome_filter ft log = (inr s2, log')
      /\ outcomes_converge s2 = false)
  /\ exists res : EquivalenceResult,
      run_analyze a b (Some ft) log = inr res
      /\ res = _finalize_partial_equivalent (provisional_score s1)
                 ("Reliability rate (" +:+ rate_percent ft
                  +:+ "%) below functional threshold")
      /\ distance_score res = provisional_score s1
      /\ is_partial_level (level res)
      /\ step_reached res = 2%Z
      /\ (forall ft' : FunctionalTest,
            reliability_rate ft' = reliability_rate ft ->
            run_analyze a b (Some ft') log = inr res)
      /\ (forall ft' : FunctionalTest,
            reliability_rate ft' = reliability_rate ft ->
            fact_pattern ft' = fact_pattern ft ->
            procedural_friction ft' = procedural_friction ft ->
            analyze a b (Some ft') log = analyze a b (Some ft) log)
      /\ In ("Procedural friction: " +:+ procedural_friction ft)
            (log_after a b (Some ft) log).
Proof.
  unfold gate1_returns.
  intros Hlt Hgate Hc. split.
  { unfold _step2_same_outcome_filter. run_engine. rewrite Hlt. eauto. }
  assert (Hrun : forall ft' : FunctionalTest,
             reliability_rate ft' = reliability_rate ft ->
             analyze a b (Some ft') log
             = (inr (_finalize_partial_equivalent (provisional_score s1)
                       ("Reliability rate (" +:+ rate_percent ft
                        +:+ "%) below functional threshold")),
                (snd (_step1_core_feature_filter a b [])
                 ++ [String "010" "=== STEP 2: FUNCTIONAL EQUIVALENCY TEST ===";
                     "Fact pattern: " +:+ fact_pattern ft';
                     "Reliability rate: " +:+ rate_percent ft +:+ "%";
                     "Procedural friction: " +:+ procedural_friction ft';
                     "RESULT: Outcomes diverge (reliability < 85%)"])%list)).
  { intros ft' Hrate.
    unfold analyze, _step2_same_outcome_filter, rate_percent.
    run_engine.
    destruct (_step1_core_feature_filter a b []) as [r1 l1].
    cbn [fst] in Hgate. subst r1.
    rewrite Hc, partial_is_not_no_direct, Hrate, Hlt.
    cbn [negb outcomes_converge step2_rationale].
    rewrite <- !app_assoc. reflexivity. }
  assert (Hscore : provisional_score s1 = 2.0%float
                   \/ provisional_score s1 = 2.5%float
                   \/ provisional_score s1 = 2.9%float).
  { destruct (_step1_core_feature_filter a b []) as [r1 l1] eqn:E1.
    cbn [fst] in Hgate. subst r1. apply step1_inv in E1.
    destruct E1 as [(Hc' & _) | (_ & Hs)]; [ congruence | tauto ]. }
  eexists. split; [ unfold run_analyze; rewrite (Hrun ft eq_refl);
                    reflexivity | ].
  split; [ reflexivity | ].
  destruct (finalize_partial_inv (provisional_score s1)
              ("Reliability rate (" +:+ rate_percent ft
               +:+ "%) below functional threshold") Hscore)
    as (_ & _ & Hlevel & Hstep).
  repeat split.
  - destruct Hscore as [-> | [-> | ->]]; reflexivity.
  - exact Hlevel.
  - exact Hstep.
  - intros ft' Hrate. unfold run_analyze. rewrite (Hrun ft' Hrate).
    reflexivity.
  - intros ft' Hrate Hfact Hfriction.
    rewrite (Hrun ft' Hrate), (Hrun ft eq_refl), Hfact, Hfriction.
    reflexivity.
  - unfold log_after. rewrite (Hrun ft eq_refl). cbn [snd].
    apply in_or_app. right. cbn. tauto.
Qed.

(** ** The convergence vector: substrings of the interpretation *)

Lemma append_assoc3 (x y z : string) : (x +:+ y) +:+ z = x +:+ y +:+ z.
Proof.
  induction x as [ | c x IH]; [ reflexivity | ].
  change (String c ((x +:+ y) +:+ z) = String c (x +:+ y +:+ z)).
  f_equal. exact IH.
Qed.

(** A text of the shape [head +:+ number +:+ sep +:+ magnitude +:+ tail]
    holds every substring of its head, and its magnitude. *)
Lemma contains_in_head (pat head rest : string) :
  PyStr.contains pat head -> PyStr.contains pat (head +:+ rest).
Proof.
  intros (pre & post & ->). exists pre, (post +:+ rest).
  rewrite !append_assoc3. reflexivity.
Qed.

Lemma contains_magnitude (head number sep magnitude tail : string) :
  PyStr.contains magnitude (head +:+ number +:+ sep +:+ magnitude +:+ tail).
Proof.
  exists (head +:+ number +:+ sep), tail.
  rewrite !append_assoc3. reflexivity.
Qed.

(** C9. [calculate_convergence_vector] returns [v = d_t1 - d_t2] and an
    interpretation by the sign and size of [v]: "Convergence" when
    [v > 0], "Divergence" when [v < 0], each with "High" when
    [abs v >= 1.5] and "Incremental" otherwise, and "Stable" when [v = 0].
    On (2.5, 1.0) it returns 1.5 with "Convergence" and "High", on
    (1.0, 1.0) it returns 0.0 with "Stable". *)
Theorem convergence_vector_classification (d_t1 d_t2 : float) :
  let v := (d_t1 - d_t2)%float in
  let high := (1.5 <=? abs v)%float in
  let text := snd (calculate_convergence_vector d_t1 d_t2) in
  fst (calculate_convergence_vector d_t1 d_t2) = v
  /\ ((0 <? v)%float = true ->
      PyStr.contains "Convergence" text
      /\ (high = true -> PyStr.contains "High" text)
      /\ (high = false -> PyStr.contains "Incremental" text))
  /\ ((v <? 0)%float = true ->
      PyStr.contains "Divergence" text
      /\ (high = true -> PyStr.contains "High" text)
      /\ (high = false -> PyStr.contains "Incremental" text))
  /\ ((v =? 0)%float = true -> PyStr.contains "Stable" text)
  /\ calculate_convergence_vector 2.5 1.0
     = (1.5%float, "Legal Convergence (+1.5) - High harmonization")
  /\ PyStr.contains "Convergence" (snd (calculate_convergence_vector 2.5 1.0))
  /\ PyStr.contains "High" (snd (calculate_convergence_vector 2.5 1.0))
  /\ calculate_convergence_vector 1.0 1.0
     = (0.0%float, "Stable Equivalence (0.0) - No net change or Feature Shift")
  /\ PyStr.contains "Stable" (snd (calculate_convergence_vector 1.0 1.0)).
Proof.
  cbv zeta. unfold calculate_convergence_vector. cbn [fst snd].
  split; [ reflexivity | ].
  split; [ | split; [ | split ] ].
  - intros Hpos. rewrite Hpos. split; [ | split ].
    + apply contains_in_head. exists "Legal ", " (+". reflexivity.
    + intros ->. apply contains_magnitude.
    + intros ->. apply contains_magnitude.
  - intros Hneg.
    rewrite (FloatOrder.ltb_true_ltb_false _ _ Hneg), Hneg.
    split; [ | split ].
    + apply contains_in_head. exists "Legal ", " (". reflexivity.
    + intros ->. apply contains_magnitude.
    + intros ->. apply contains_magnitude.
  - intros Hzero.
    destruct (FloatOrder.eqb_true_ltb_false _ _ Hzero) as [Hnlt Hngt].
    rewrite Hnlt, Hngt.
    exists "", " Equivalence (0.0) - No net change or Feature Shift".
    reflexivity.
  - repeat split.
    + exists "Legal ", " (+1.5) - High harmonization". reflexivity.
    + exists "Legal Convergence (+1.5) - ", " harmonization". reflexivity.
    + exists "", " Equivalence (0.0) - No net change or Feature Shift".
      reflexivity.
Qed.

(** ** Integer true division stays in range *)

Lemma digits2_pos_size (p : positive) : digits2_pos p = Pos.size p.
Proof. induction p as [p IH | p IH | ]; cbn; congruence. Qed.

Lemma Zdigits2_bound (m k : Z) :
  (0 <= m < 2 ^ k)%Z -> (0 <= k)%Z -> (Zdigits2 m <= k)%Z.
Proof.
  intros [Hm Hlt] Hk. destruct m as [ | p | p]; cbn; [ lia | | lia ].
  rewrite digits2_pos_size.
  pose proof (Pos.size_le p) as Hsize.
  assert (H2 : (2 ^ Z.pos (Pos.size p) <= 2 * Z.pos p)%Z).
  { rewrite <- Pos2Z.inj_pow. change (2 * Z.pos p)%Z with (Z.pos p~0). lia. }
  destruct (Z_lt_le_dec k (Z.pos (Pos.size p))) as [Hgt | ]; [ | lia ].
  exfalso.
  assert (2 ^ (k + 1) <= 2 ^ Z.pos (Pos.size p))%Z
    by (apply Z.pow_le_mono_r; lia).
  rewrite Z.pow_add_r in H by lia. change (2 ^ 1)%Z with 2%Z in H.
  pose proof (Z.pow_pos_nonneg 2 k). lia.
Qed.

Lemma shr_1_bound (mrs : shr_record) :
  (0 <= shr_m mrs)%Z ->
  (0 <= shr_m (shr_1 mrs) <= shr_m mrs)%Z.
Proof.
  destruct mrs as [m r s]. cbn [shr_m]. intros Hm.
  destruct m as [ | [p | p | ] | p]; cbn; lia.
Qed.

Lemma iter_shr_1_bound (p : positive) (mrs : shr_record) :
  (0 <= shr_m mrs)%Z ->
  (0 <= shr_m (SpecFloat.iter_pos shr_1 p mrs) <= shr_m mrs)%Z.
Proof.
  revert mrs. induction p as [p IH | p IH | ]; intros mrs Hm; cbn [SpecFloat.iter_pos].
  - pose proof (shr_1_bound mrs Hm) as H1.
    pose proof (IH (shr_1 mrs) ltac:(lia)) as H2.
    pose proof (IH (SpecFloat.iter_pos shr_1 p (shr_1 mrs)) ltac:(lia)) as H3. lia.
  - pose proof (IH mrs Hm) as H2.
    pose proof (IH (SpecFloat.iter_pos shr_1 p mrs) ltac:(lia)) as H3. lia.
  - apply shr_1_bound, Hm.
Qed.

Lemma shr_record_of_loc_m (m : Z) (l : location) :
  shr_m (shr_record_of_loc m l) = m.
Proof. destruct l as [ | [ | | ]]; reflexivity. Qed.

(** What [shr_fexp] gives: a mantissa no larger, at the old exponent or at
    the canonical one. *)
Lemma shr_fexp_bound (m e : Z) (l : location) :
  (0 <= m)%Z ->
  let '(mrs, e') := shr_fexp prec emax m e l in
  (0 <= shr_m mrs <= m)%Z
  /\ (e' = e \/ e' = fexp prec emax (Zdigits2 m + e))%Z.
Proof.
  intros Hm. unfold shr_fexp, shr.
  destruct (fexp prec emax (Zdigits2 m + e) - e)%Z as [ | p | p] eqn:En.
  - rewrite shr_record_of_loc_m. split; [ lia | left; reflexivity ].
  - split.
    + pose proof (iter_shr_1_bound p (shr_record_of_loc m l)) as H.
      rewrite shr_record_of_loc_m in H. apply H, Hm.
    + right. lia.
  - rewrite shr_record_of_loc_m. split; [ lia | left; reflexivity ].
Qed.

Lemma round_nearest_even_bound (m : Z) (l : location) :
  (m <= round_nearest_even m l <= m + 1)%Z.
Proof.
  destruct l as [ | [ | | ]]; cbn; try lia. destruct (Z.even m); lia.
Qed.

Lemma fexp_le (x b : Z) :
  (x - 53 <= b)%Z -> (-1074 <= b)%Z -> (fexp prec emax x <= b)%Z.
Proof. unfold fexp, emin, prec, emax. lia. Qed.

(** Rounding a mantissa of at most [2^t] at the exponent [-t] does not
    overflow. *)
Lemma binary_round_aux_no_overflow (sx : bool) (m t : Z) (l : location) :
  (0 <= m <= 2 ^ t)%Z -> (0 <= t <= 1074)%Z ->
  forall s : bool, binary_round_aux prec emax sx m (- t) l <> S754_infinity s.
Proof.
  intros Hm Ht s. unfold binary_round_aux.
  pose proof (shr_fexp_bound m (- t) l ltac:(lia)) as H1.
  destruct (shr_fexp prec emax m (- t) l) as [mrs1 e1].
  destruct H1 as [Hm1 He1].
  set (m2 := round_nearest_even (shr_m mrs1) (loc_of_shr_record mrs1)).
  pose proof (round_nearest_even_bound (shr_m mrs1) (loc_of_shr_record mrs1))
    as Hm2. fold m2 in Hm2.
  pose proof (shr_fexp_bound m2 e1 loc_Exact ltac:(lia)) as H2.
  destruct (shr_fexp prec emax m2 e1 loc_Exact) as [mrs2 e2].
  destruct H2 as [_ He2].
  assert (Hpow : (2 ^ t + 1 < 2 ^ (t + 2))%Z).
  { rewrite Z.pow_add_r by lia. change (2 ^ 2)%Z with 4%Z.
    pose proof (Z.pow_pos_nonneg 2 t). lia. }
  assert (Hd1 : (Zdigits2 m <= t + 2)%Z) by (apply Zdigits2_bound; lia).
  assert (Hd2 : (Zdigits2 m2 <= t + 2)%Z) by (apply Zdigits2_bound; lia).
  assert (Hd1' : (Zdigits2 m <= t + 1)%Z).
  { apply Zdigits2_bound; [ | lia ].
    rewrite Z.pow_add_r by lia. change (2 ^ 1)%Z with 2%Z.
    pose proof (Z.pow_pos_nonneg 2 t). lia. }
  assert (He1' : (e1 = - t \/ e1 <= -52)%Z).
  { destruct He1 as [-> | ->]; [ left; reflexivity | right ].
    apply fexp_le; lia. }
  assert (He2' : (e2 <= 971)%Z).
  { destruct He2 as [-> | ->]; [ lia | ]. apply fexp_le; lia. }
  destruct (shr_m mrs2) as [ | p | p]; try discriminate.
  change (emax - prec)%Z with 971%Z.
  destruct (Z.leb_spec e2 971); [ discriminate | lia ].
Qed.

Lemma SFdiv_core_bound (mx my : positive) :
  (mx <= my)%positive ->
  let '(q, e, l) := SFdiv_core_binary prec emax (Z.pos mx) 0 (Z.pos my) 0 in
  exists t : Z, e = (- t)%Z /\ (0 <= t <= 1074)%Z /\ (0 <= q <= 2 ^ t)%Z.
Proof.
  intros Hle. unfold SFdiv_core_binary.
  set (e := Z.min (fexp prec emax (Zdigits2 (Z.pos mx) + 0
                                   - (Zdigits2 (Z.pos my) + 0))) (0 - 0)).
  assert (He : (-1074 <= e <= 0)%Z).
  { subst e. unfold fexp, emin, prec, emax. lia. }
  set (m' := match (0 - 0 - e)%Z with
             | 0%Z => Z.pos mx
             | Z.pos _ => Z.shiftl (Z.pos mx) (0 - 0 - e)
             | Z.neg _ => 0%Z
             end).
  assert (Hm' : m' = (Z.pos mx * 2 ^ (- e))%Z).
  { subst m'. replace (0 - 0 - e)%Z with (- e)%Z by lia.
    destruct (- e)%Z as [ | p | p] eqn:Ee.
    - cbn. lia.
    - rewrite Z.shiftl_mul_pow2 by lia. reflexivity.
    - lia. }
  pose proof (Z.pow_pos_nonneg 2 (- e) ltac:(lia) ltac:(lia)) as Hpow.
  assert (Hq : Z.div_eucl m' (Z.pos my) = (m' / Z.pos my, m' mod Z.pos my)%Z).
  { unfold Z.div, Z.modulo. destruct (Z.div_eucl m' (Z.pos my)). reflexivity. }
  rewrite Hq. exists (- e)%Z. split; [ lia | ]. split; [ lia | ]. split.
  - apply Z.div_pos; lia.
  - apply Z.div_le_upper_bound; [ lia | ]. rewrite Hm'. nia.
Qed.

(** [a / b] on integers with [0 <= a <= b] and [b] not zero returns. *)
Lemma int_true_div_in_range (a b : Z) :
  (0 <= a <= b)%Z -> (0 < b)%Z ->
  exists x : float, PyFloat.int_true_div a b = inr x.
Proof.
  intros Ha Hb. unfold PyFloat.int_true_div.
  destruct (Z.eqb_spec b 0) as [ | _]; [ lia | ].
  destruct b as [ | my | my]; try lia.
  destruct a as [ | mx | mx]; try lia.
  { cbn. eauto. }
  cbn [PyFloat.Z2SF SFdiv xorb].
  pose proof (SFdiv_core_bound mx my ltac:(lia)) as Hcore.
  destruct (SFdiv_core_binary prec emax (Z.pos mx) 0 (Z.pos my) 0)
    as [[q e] l].
  destruct Hcore as (t & -> & Ht & Hq).
  pose proof (binary_round_aux_no_overflow false q t l Hq Ht) as Hno.
  destruct (binary_round_aux prec emax false q (- t) l) as [s | s | | s m e];
    eauto.
  exfalso. apply (Hno s). reflexivity.
Qed.

(** ** When the engine raises *)

Lemma list_to_set_size_zero (l : list string) :
  size (list_to_set l : gset string) = 0 <-> l = [].
Proof.
  split.
  - intros Hsize. apply size_empty_iff in Hsize.
    destruct l as [ | x l]; [ reflexivity | ].
    exfalso. apply (not_elem_of_empty (C := gset string) x).
    rewrite <- Hsize. set_solver.
  - intros ->. reflexivity.
Qed.

(** The heuristic raises on two empty token sets and returns on every
    other pair. *)
Lemma overlap_raises_iff (obj_a obj_b : string) :
  (str_split (str_lower obj_a) = []
   /\ str_split (str_lower obj_b) = []
   /\ _objectives_substantially_overlap obj_a obj_b = inl ZeroDivisionError)
  \/ ((str_split (str_lower obj_a) <> []
       \/ str_split (str_lower obj_b) <> [])
      /\ exists t : bool, _objectives_substantially_overlap obj_a obj_b = inr t).
Proof.
  unfold _objectives_substantially_overlap.
  set (ka := list_to_set (str_split (str_lower obj_a)) : gset string).
  set (kb := list_to_set (str_split (str_lower obj_b)) : gset string).
  destruct (Nat.eq_dec (Nat.max (size ka) (size kb)) 0) as [Hzero | Hpos].
  - left.
    assert (Ha : size ka = 0) by lia. assert (Hb : size kb = 0) by lia.
    apply list_to_set_size_zero in Ha, Hb.
    split; [ exact Ha | ]. split; [ exact Hb | ].
    rewrite Hzero. reflexivity.
  - right. split.
    + destruct (str_split (str_lower obj_a)) eqn:Ea;
        [ | left; discriminate ].
      destruct (str_split (str_lower obj_b)) eqn:Eb;
        [ | right; discriminate ].
      exfalso. apply Hpos. reflexivity.
    + assert (Hle : size (ka ∩ kb) <= Nat.max (size ka) (size kb)).
      { pose proof (subseteq_size (ka ∩ kb) ka) as Hsub.
        assert (Hin : ka ∩ kb ⊆ ka) by apply intersection_subseteq_l.
        specialize (Hsub Hin). lia. }
      destruct (int_true_div_in_range
                  (Z.of_nat (size (ka ∩ kb)))
                  (Z.of_nat (Nat.max (size ka) (size kb)))
                  ltac:(lia) ltac:(lia)) as [x ->].
      eauto.
Qed.

(** Once Gate 1 has returned, nothing raises: [analyze] raises what
    Gate 1's teleology test raises, and nothing else. *)
Lemma analyze_raises_with_teleology
  (a b : LegalConcept) (ft : option FunctionalTest) (log : list string)
  (e : exn) :
  run_analyze a b ft log = inl e <-> teleology a b = inl e.
Proof.
  unfold run_analyze, analyze, _step1_core_feature_filter,
    _step2_same_outcome_filter, _step3_perfect_substitution_filter, teleology.
  fold (shared_elements a b). run_engine.
  destruct (str_lower (regulatory_objective a)
            =? str_lower (regulatory_objective b))%string.
  2: destruct (_objectives_substantially_overlap _ _) as [e' | t];
       [ cbn; split; intros [= ->]; reflexivity | ].
  all: destruct (shared_elements a b =? 0)%nat; cbn [andb negb];
       try destruct t; cbn [andb negb].
  all: try (destruct (3 <=? shared_elements a b)%nat;
            [ | destruct (1 <=? shared_elements a b)%nat ]).
  all: cbn [classification provisional_score step1_rationale].
  all: rewrite ?partial_is_not_no_direct, ?no_direct_is_no_direct.
  all: try (split; intros H; discriminate H).
  all: destruct ft as [ft | ]; try (split; intros H; discriminate H).
  all: destruct (reliability_rate ft <? 0.85)%float; cbn [negb];
       try (split; intros H; discriminate H).
  all: destruct ((0.95 <? reliability_rate ft)%float
                 && (procedural_friction ft =? "low")%string
                 && (iteration_threshold ft =? 1)%Z);
       [ | destruct ((0.95 <? reliability_rate ft)%float
                     && (procedural_friction ft =? "high")%string);
           [ | destruct (0.90 <? reliability_rate ft)%float ] ].
  all: cbn [negb outcomes_converge functional_score step2_rationale].
  all: match goal with
       | |- context [ if ?c then _ else _ ] => destruct c
       end.
  all: split; intros H; discriminate H.
Qed.

(** X1. [analyze] raises in one situation only: the two objectives differ
    in lower case and neither holds a token; what it raises then is
    ZeroDivisionError.  On every other input it returns a result: no other
    exception, and no missing key in the dictionaries of the gates. *)
Theorem analyze_raises_iff
  (a b : LegalConcept) (ft : option FunctionalTest) (log : list string) :
  let token_free :=
    str_lower (regulatory_objective a) <> str_lower (regulatory_objective b)
    /\ str_split (str_lower (regulatory_objective a)) = []
    /\ str_split (str_lower (regulatory_objective b)) = [] in
  (run_analyze a b ft log = inl ZeroDivisionError <-> token_free)
  /\ (forall e : exn, run_analyze a b ft log = inl e -> e = ZeroDivisionError)
  /\ (~ token_free ->
      exists res : EquivalenceResult, run_analyze a b ft log = inr res).
Proof.
  cbv zeta.
  assert (Hiff : forall e : exn,
             run_analyze a b ft log = inl e ->
             e = ZeroDivisionError
             /\ str_lower (regulatory_objective a)
                <> str_lower (regulatory_objective b)
             /\ str_split (str_lower (regulatory_objective a)) = []
             /\ str_split (str_lower (regulatory_objective b)) = []).
  { intros e He. apply analyze_raises_with_teleology in He.
    unfold teleology in He.
    destruct (String.eqb_spec (str_lower (regulatory_objective a))
                (str_lower (regulatory_objective b))) as [ | Hne];
      [ discriminate He | ].
    destruct (overlap_raises_iff (regulatory_objective a)
                (regulatory_objective b))
      as [(Ha & Hb & Hraise) | (_ & t & Hret)]; [ | congruence ].
    rewrite Hraise in He. injection He as <-. tauto. }
  split; [ split | split ].
  - intros He. apply (Hiff _ He).
  - intros (Hne & Ha & Hb).
    apply (analyze_raises_on_token_free_objectives a b ft log Hne Ha Hb).
  - intros e He. apply (Hiff _ He).
  - intros Hnot. destruct (run_analyze a b ft log) as [e | res] eqn:Hrun;
      [ | eauto ].
    exfalso. apply Hnot. apply (Hiff e). reflexivity.
Qed.

(** ** Symmetry and what the engine reads of a concept *)

Lemma shared_elements_sym (a b : LegalConcept) :
  shared_elements a b = shared_elements b a.
Proof.
  unfold shared_elements. f_equal. apply (comm_L (∩)).
Qed.

Lemma overlap_sym (obj_a obj_b : string) :
  _objectives_substantially_overlap obj_a obj_b
  = _objectives_substantially_overlap obj_b obj_a.
Proof.
  unfold _objectives_substantially_overlap.
  rewrite (comm_L (∩) (list_to_set (str_split (str_lower obj_a)))
             (list_to_set (str_split (str_lower obj_b)))).
  rewrite (Nat.max_comm
             (size (list_to_set (str_split (str_lower obj_a)) : gset string))).
  reflexivity.
Qed.

Lemma step1_sym (a b : LegalConcept) (log : list string) :
  _step1_core_feature_filter a b log = _step1_core_feature_filter b a log.
Proof.
  unfold _step1_core_feature_filter.
  fold (shared_elements a b). fold (shared_elements b a).
  rewrite (shared_elements_sym a b).
  rewrite (String.eqb_sym (str_lower (regulatory_objective a))).
  rewrite (overlap_sym (regulatory_objective a)).
  reflexivity.
Qed.

Lemma step3_sym (a b : LegalConcept) (ft : FunctionalTest) (log : list string) :
  _step3_perfect_substitution_filter a b ft log
  = _step3_perfect_substitution_filter b a ft log.
Proof.
  unfold _step3_perfect_substitution_filter.
  rewrite (String.eqb_sym (regulatory_objective a)).
  rewrite (bool_decide_ext
             ((list_to_set (constituent_elements a) : gset string)
              = list_to_set (constituent_elements b))
             ((list_to_set (constituent_elements b) : gset string)
              = list_to_set (constituent_elements a)))
    by (split; intros H; symmetry; exact H).
  reflexivity.
Qed.

(** [analyze] runs Gate 1 and Gate 3 on the concepts and nothing else:
    two pairs on which the two gates agree are analyzed alike. *)
Lemma analyze_by_gates (a b a' b' : LegalConcept)
  (ft : option FunctionalTest) (log : list string) :
  (forall l, _step1_core_feature_filter a b l
             = _step1_core_feature_filter a' b' l) ->
  (forall t l, _step3_perfect_substitution_filter a b t l
               = _step3_perfect_substitution_filter a' b' t l) ->
  analyze a b ft log = analyze a' b' ft log.
Proof.
  intros H1 H3. unfold analyze. run_engine. rewrite (H1 []).
  destruct (_step1_core_feature_filter a' b' []) as [[e | s1] l1];
    [ reflexivity | ].
  destruct (classification s1 =? "NO_DIRECT")%string; [ reflexivity | ].
  destruct ft as [t | ]; [ | reflexivity ].
  destruct (_step2_same_outcome_filter t l1) as [[e | s2] l2];
    [ reflexivity | ].
  destruct (negb (outcomes_converge s2)); [ reflexivity | ].
  destruct (functional_score s2) as [f | ]; [ | reflexivity ].
  rewrite (H3 t l2). reflexivity.
Qed.

(** X2. The analysis is symmetric: swapping the two concepts changes
    neither what [analyze] returns or raises nor the log it leaves. *)
Theorem analyze_symmetric
  (a b : LegalConcept) (ft : option FunctionalTest) (log : list string) :
  analyze a b ft log = analyze b a ft log.
Proof.
  apply analyze_by_gates.
  - apply step1_sym.
  - apply step3_sym.
Qed.

(** X3. Of a concept, the engine reads the set of constituent elements and
    the objective: the name, the jurisdiction, and the order and
    repetitions in the list of elements change neither the result nor the
    log, on either side of the pair. *)
Theorem analyze_reads_set_and_objective
  (a a' b : LegalConcept) (ft : option FunctionalTest) (log : list string) :
  (list_to_set (constituent_elements a) : gset string)
    = list_to_set (constituent_elements a') ->
  regulatory_objective a = regulatory_objective a' ->
  analyze a b ft log = analyze a' b ft log
  /\ analyze b a ft log = analyze b a' ft log.
Proof.
  intros Hset Hobj.
  assert (H : analyze a b ft log = analyze a' b ft log).
  { apply analyze_by_gates.
    - intros l. unfold _step1_core_feature_filter. rewrite Hset, Hobj.
      reflexivity.
    - intros t l. unfold _step3_perfect_substitution_filter.
      rewrite Hset, Hobj. reflexivity. }
  split; [ exact H | ].
  rewrite (analyze_by_gates b a a b ft log
             (step1_sym b a) (fun t l => step3_sym b a t l)).
  rewrite (analyze_by_gates b a' a' b ft log
             (step1_sym b a') (fun t l => step3_sym b a' t l)).
  exact H.
Qed.

(** ** The table of results *)

Lemma finalize_partial_verdict (r : string) :
  verdict (_finalize_partial_equivalent 2.0 r) = (PARTIAL_STRONG, 2.0%float, 2%Z)
  /\ verdict (_finalize_partial_equivalent 2.5 r)
     = (PARTIAL_STANDARD, 2.5%float, 2%Z)
  /\ verdict (_finalize_partial_equivalent 2.9 r)
     = (PARTIAL_WEAK, 2.9%float, 2%Z).
Proof. repeat split; reflexivity. Qed.

Lemma finalize_functional_verdict (r : string) :
  verdict (_finalize_functional_equivalent 0.15 r)
  = (FUNCTIONAL_STRONG, 0.15%float, 3%Z)
  /\ verdict (_finalize_functional_equivalent 0.35 r)
     = (FUNCTIONAL_STRONG, 0.35%float, 3%Z)
  /\ verdict (_finalize_functional_equivalent 1.0 r)
     = (FUNCTIONAL_STANDARD, 1.0%float, 3%Z)
  /\ verdict (_finalize_functional_equivalent 1.7 r)
     = (FUNCTIONAL_WEAK, 1.7%float, 3%Z).
Proof. repeat split; reflexivity. Qed.

(** Whatever the score, a finalizer stays in its own family of levels. *)
Lemma finalize_partial_level (score : float) (r : string) :
  is_partial_level (level (_finalize_partial_equivalent score r)).
Proof.
  unfold _finalize_partial_equivalent, is_partial_level.
  destruct (score <=? 2.1)%float; [ | destruct (score <=? 2.7)%float ];
    cbn; tauto.
Qed.

Lemma finalize_functional_level (score : float) (r : string) :
  is_functional_level (level (_finalize_functional_equivalent score r)).
Proof.
  unfold _finalize_functional_equivalent, is_functional_level.
  destruct (score <=? 0.4)%float; [ | destruct (score <=? 1.4)%float ];
    cbn; tauto.
Qed.

(** X4. What [analyze] returns is one of nine verdicts: the level, the
    distance and the step reached come together, so that the step is 1
    for NO_DIRECT, 2 for the partial levels and 3 for TOTAL and the
    functional levels, and the distance is one of nine numbers. *)
Theorem analyze_verdict_in_table
  (a b : LegalConcept) (ft : option FunctionalTest) (log : list string)
  (res : EquivalenceResult) :
  run_analyze a b ft log = inr res -> In (verdict res) verdict_table.
Proof.
  unfold run_analyze, analyze, _step2_same_outcome_filter,
    _step3_perfect_substitution_filter.
  run_engine.
  destruct (_step1_core_feature_filter a b []) as [[e | s1] l1] eqn:E1;
    [ discriminate | ].
  apply step1_inv in E1.
  destruct E1 as [(Hc & _ & _) | (Hc & Hs)]; rewrite Hc.
  - rewrite no_direct_is_no_direct. intros [= <-]. cbn. tauto.
  - rewrite partial_is_not_no_direct.
    assert (Hp : forall r,
               In (verdict (_finalize_partial_equivalent
                              (provisional_score s1) r)) verdict_table).
    { intros r. destruct (finalize_partial_verdict r) as (H1 & H2 & H3).
      destruct Hs as [(_ & ->) | [(_ & ->) | (_ & ->)]];
        rewrite ?H1, ?H2, ?H3; cbn; tauto. }
    destruct ft as [ft | ]; [ | intros [= <-]; apply Hp ].
    destruct (reliability_rate ft <? 0.85)%float;
      [ cbn [negb]; intros [= <-]; apply Hp | ].
    destruct ((0.95 <? reliability_rate ft)%float
              && (procedural_friction ft =? "low")%string
              && (iteration_threshold ft =? 1)%Z);
      [ | destruct ((0.95 <? reliability_rate ft)%float
                    && (procedural_friction ft =? "high")%string);
          [ | destruct (0.90 <? reliability_rate ft)%float ] ].
    all: cbn [negb outcomes_converge functional_score step2_rationale].
    all: match goal with
         | |- context [ if ?c then _ else _ ] => destruct c
         end.
    all: intros [= <-]; try (cbn; tauto).
    all: match goal with
         | |- context [ _finalize_functional_equivalent _ ?r ] =>
             destruct (finalize_functional_verdict r) as (H1 & H2 & H3 & H4);
             rewrite ?H1, ?H2, ?H3, ?H4; cbn; tauto
         end.
Qed.

(** ** When the extreme levels are reached *)

Lemma partial_level_not_total (l : EquivalenceLevel) :
  is_partial_level l -> l <> TOTAL /\ l <> NO_DIRECT.
Proof. intros [-> | [-> | ->]]; split; discriminate. Qed.

Lemma functional_level_not_total (l : EquivalenceLevel) :
  is_functional_level l -> l <> TOTAL /\ l <> NO_DIRECT.
Proof. intros [-> | [-> | ->]]; split; discriminate. Qed.

(** X5. [analyze] returns TOTAL exactly when a functional test is supplied
    whose rate is not below 0.85 and whose friction is "low", and the two
    concepts have the same set of elements and the same objective.  The
    iteration threshold plays no part, and neither does the tier Gate 2
    gave: a rate of 0.85 with a threshold of 5 is enough. *)
Theorem analyze_total_iff
  (a b : LegalConcept) (ft : option FunctionalTest) (log : list string) :
  (exists res : EquivalenceResult,
      run_analyze a b ft log = inr res /\ level res = TOTAL)
  <-> exists t : FunctionalTest,
        ft = Some t
        /\ (reliability_rate t <? 0.85)%float = false
        /\ procedural_friction t = "low"
        /\ (list_to_set (constituent_elements a) : gset string)
           = list_to_set (constituent_elements b)
        /\ regulatory_objective a = regulatory_objective b.
Proof.
  split.
  - intros (res & Hrun & Hlevel). revert Hrun.
    unfold run_analyze, analyze, _step2_same_outcome_filter,
      _step3_perfect_substitution_filter.
    run_engine.
    destruct (_step1_core_feature_filter a b []) as [[e | s1] l1];
      [ discriminate | ].
    destruct (classification s1 =? "NO_DIRECT")%string;
      [ intros [= <-]; discriminate Hlevel | ].
    assert (Hp : forall s r,
               level (_finalize_partial_equivalent s r) <> TOTAL)
      by (intros s r; apply partial_level_not_total,
            finalize_partial_level).
    assert (Hf : forall s r,
               level (_finalize_functional_equivalent s r) <> TOTAL)
      by (intros s r; apply functional_level_not_total,
            finalize_functional_level).
    destruct ft as [t | ];
      [ | intros [= <-]; exfalso; apply (Hp _ _ Hlevel) ].
    destruct (reliability_rate t <? 0.85)%float eqn:Hrate;
      [ cbn [negb]; intros [= <-]; exfalso; apply (Hp _ _ Hlevel) | ].
    destruct ((0.95 <? reliability_rate t)%float
              && (procedural_friction t =? "low")%string
              && (iteration_threshold t =? 1)%Z);
      [ | destruct ((0.95 <? reliability_rate t)%float
                    && (procedural_friction t =? "high")%string);
          [ | destruct (0.90 <? reliability_rate t)%float ] ].
    all: cbn [negb outcomes_converge functional_score step2_rationale].
    all: destruct (bool_decide
                     ((list_to_set (constituent_elements a) : gset string)
                      = list_to_set (constituent_elements b))) eqn:Hset;
         destruct (String.eqb_spec (regulatory_objective a)
                     (regulatory_objective b)) as [Hobj | Hobj];
         destruct (String.eqb_spec (procedural_friction t) "low")
           as [Hlow | Hlow];
         cbn [andb].
    all: intros [= <-]; try (exfalso; apply (Hf _ _ Hlevel)).
    all: exists t; repeat split; try assumption.
    all: apply bool_decide_eq_true in Hset; exact Hset.
  - intros (t & -> & Hrate & Hlow & Hset & Hobj).
    assert (Hlower : str_lower (regulatory_objective a)
                     = str_lower (regulatory_objective b))
      by (rewrite Hobj; reflexivity).
    destruct (step1_same_objective a b [] Hlower) as (s1 & l1 & Hrun & Hc).
    unfold run_analyze, analyze, _step2_same_outcome_filter,
      _step3_perfect_substitution_filter.
    run_engine.
    rewrite Hrun, Hc, partial_is_not_no_direct, Hrate, Hlow, Hset, Hobj.
    rewrite bool_decide_eq_true_2 by reflexivity.
    rewrite !String.eqb_refl.
    destruct ((0.95 <? reliability_rate t)%float && true
              && (iteration_threshold t =? 1)%Z);
      [ | destruct ((0.95 <? reliability_rate t)%float
                    && ("low" =? "high")%string);
          [ | destruct (0.90 <? reliability_rate t)%float ] ].
    all: cbn [andb negb outcomes_converge functional_score
              perfect_substitution].
    all: eexists; split; reflexivity.
Qed.

(** X6. [analyze] returns NO_DIRECT exactly when the two concepts share no
    element and the teleology test of Gate 1 returns False; the
    functional test is never consulted. *)
Theorem analyze_no_direct_iff
  (a b : LegalConcept) (ft : option FunctionalTest) (log : list string) :
  (exists res : EquivalenceResult,
      run_analyze a b ft log = inr res /\ level res = NO_DIRECT)
  <-> shared_elements a b = 0 /\ teleology a b = inr false.
Proof.
  assert (Hp : forall s r,
             level (_finalize_partial_equivalent s r) <> NO_DIRECT)
    by (intros s r; apply partial_level_not_total, finalize_partial_level).
  assert (Hf : forall s r,
             level (_finalize_functional_equivalent s r) <> NO_DIRECT)
    by (intros s r; apply functional_level_not_total,
          finalize_functional_level).
  unfold run_analyze, analyze, _step1_core_feature_filter,
    _step2_same_outcome_filter, _step3_perfect_substitution_filter, teleology.
  fold (shared_elements a b). run_engine.
  destruct (str_lower (regulatory_objective a)
            =? str_lower (regulatory_objective b))%string.
  2: destruct (_objectives_substantially_overlap _ _) as [e | t];
       [ split; [ intros (res & H & _) | intros (_ & H) ]; discriminate H | ].
  all: destruct (Nat.eqb_spec (shared_elements a b) 0) as [E0 | E0];
       cbn [andb negb]; try destruct t; cbn [andb negb].
  all: try (destruct (3 <=? shared_elements a b)%nat;
            [ | destruct (1 <=? shared_elements a b)%nat ]).
  all: cbn [classification provisional_score step1_rationale].
  all: rewrite ?partial_is_not_no_direct, ?no_direct_is_no_direct.
  all: try (split; [ intros _; split; [ assumption | reflexivity ]
                   | intros _; eexists; split; reflexivity ]).
  all: split; [ | intros (Hn & Ht); first [ contradiction | discriminate Ht ] ].
  all: intros (res & Hrun & Hlevel); exfalso; revert Hrun.
  all: destruct ft as [ft | ];
       [ | intros [= <-]; apply (Hp _ _ Hlevel) ].
  all: destruct (reliability_rate ft <? 0.85)%float; cbn [negb];
       [ intros [= <-]; apply (Hp _ _ Hlevel) | ].
  all: destruct ((0.95 <? reliability_rate ft)%float
                 && (procedural_friction ft =? "low")%string
                 && (iteration_threshold ft =? 1)%Z);
       [ | destruct ((0.95 <? reliability_rate ft)%float
                     && (procedural_friction ft =? "high")%string);
           [ | destruct (0.90 <? reliability_rate ft)%float ] ].
  all: cbn [negb outcomes_converge functional_score step2_rationale].
  all: match goal with
       | |- context [ if ?c then _ else _ ] => destruct c
       end.
  all: intros [= <-]; first [ discriminate Hlevel | apply (Hf _ _ Hlevel) ].
Qed.

Lemma finalize_partial_score (score : float) (r : string) :
  distance_score (_finalize_partial_equivalent score r) = score.
Proof.
  unfold _finalize_partial_equivalent.
  destruct (score <=? 2.1)%float; [ | destruct (score <=? 2.7)%float ];
    reflexivity.
Qed.

Lemma finalize_functional_score (score : float) (r : string) :
  distance_score (_finalize_functional_equivalent score r) = score.
Proof.
  unfold _finalize_functional_equivalent.
  destruct (score <=? 0.4)%float; [ | destruct (score <=? 1.4)%float ];
    reflexivity.
Qed.

(** X7. Supplying a functional test never increases the distance: when
    [analyze] returns without a test and with one, the distance with the
    test is at most the distance without. *)
Theorem functional_test_never_increases_distance
  (a b : LegalConcept) (t : FunctionalTest) (log log' : list string)
  (res0 res1 : EquivalenceResult) :
  run_analyze a b None log = inr res0 ->
  run_analyze a b (Some t) log' = inr res1 ->
  (distance_score res1 <=? distance_score res0)%float = true.
Proof.
  unfold run_analyze, analyze, _step2_same_outcome_filter,
    _step3_perfect_substitution_filter.
  run_engine.
  destruct (_step1_core_feature_filter a b []) as [[e | s1] l1] eqn:E1;
    [ discriminate | ].
  apply step1_inv in E1.
  destruct E1 as [(Hc & _ & _) | (Hc & Hs)]; rewrite Hc.
  - rewrite no_direct_is_no_direct. intros [= <-] [= <-]. reflexivity.
  - rewrite partial_is_not_no_direct.
    assert (Hscore : (provisional_score s1 <=? provisional_score s1)%float = true
                     /\ (0.0 <=? provisional_score s1)%float = true
                     /\ (0.15 <=? provisional_score s1)%float = true
                     /\ (0.35 <=? provisional_score s1)%float = true
                     /\ (1.0 <=? provisional_score s1)%float = true
                     /\ (1.7 <=? provisional_score s1)%float = true).
    { destruct Hs as [(_ & ->) | [(_ & ->) | (_ & ->)]];
        repeat split; reflexivity. }
    destruct Hscore as (Hpp & H0 & H1 & H2 & H3 & H4).
    intros [= <-]. rewrite finalize_partial_score.
    destruct (reliability_rate t <? 0.85)%float; cbn [negb].
    { intros [= <-]. rewrite finalize_partial_score. exact Hpp. }
    destruct ((0.95 <? reliability_rate t)%float
              && (procedural_friction t =? "low")%string
              && (iteration_threshold t =? 1)%Z);
      [ | destruct ((0.95 <? reliability_rate t)%float
                    && (procedural_friction t =? "high")%string);
          [ | destruct (0.90 <? reliability_rate t)%float ] ].
    all: cbn [negb outcomes_converge functional_score step2_rationale].
    all: match goal with
         | |- context [ if ?c then _ else _ ] => destruct c
         end.
    all: intros [= <-]; rewrite ?finalize_functional_score;
         cbn [distance_score]; assumption.
Qed.

(** ** Values that are not numbers, and the order of the others *)

Lemma SFcompare_refl (x : spec_float) :
  x <> S754_nan -> SFcompare x x = Some Eq.
Proof.
  destruct x as [s | s | | s m e]; intros Hx;
    [ reflexivity | destruct s; reflexivity | contradiction | ].
  cbn. rewrite Z.compare_refl.
  change (Pos.compare_cont Eq m m) with (m ?= m)%positive.
  rewrite Pos.compare_refl. destruct s; reflexivity.
Qed.

Lemma is_nan_Prim2SF (x : float) :
  is_nan x = true -> Prim2SF x = S754_nan.
Proof.
  unfold is_nan. rewrite FloatAxioms.eqb_spec. unfold SFeqb.
  destruct (Prim2SF x) as [s | s | | s m e] eqn:Ex; [ | | reflexivity | ].
  all: rewrite SFcompare_refl by discriminate; discriminate.
Qed.

(** A value that is not a number is below nothing and above nothing. *)
Lemma is_nan_ltb (x y : float) :
  is_nan x = true -> (x <? y)%float = false /\ (y <? x)%float = false.
Proof.
  intros Hx. apply is_nan_Prim2SF in Hx.
  rewrite !ltb_spec, Hx. unfold SFltb.
  split; [ reflexivity | ].
  destruct (Prim2SF y) as [s | s | | s m e]; reflexivity.
Qed.

(** A value neither below nor above zero is zero or not a number. *)
Lemma not_ltb_zero (v : float) :
  (0 <? v)%float = false -> (v <? 0)%float = false ->
  (v =? 0)%float = true \/ is_nan v = true.
Proof.
  unfold is_nan.
  rewrite !ltb_spec, !FloatAxioms.eqb_spec. unfold SFltb, SFeqb.
  change (Prim2SF 0) with (S754_zero false).
  destruct (Prim2SF v) as [s | s | | s m e]; cbn.
  - intros _ _. left. reflexivity.
  - destruct s; discriminate.
  - intros _ _. right. reflexivity.
  - destruct s; discriminate.
Qed.

(** X8. The interpretation of the convergence vector is the "Stable
    Equivalence" text exactly when the vector is zero, of either sign, or
    is not a number: a difference such as infinity minus infinity is
    reported as stable. *)
Theorem convergence_vector_stable_iff (d_t1 d_t2 : float) :
  snd (calculate_convergence_vector d_t1 d_t2)
  = "Stable Equivalence (0.0) - No net change or Feature Shift"
  <-> ((d_t1 - d_t2 =? 0)%float = true \/ is_nan (d_t1 - d_t2)%float = true).
Proof.
  unfold calculate_convergence_vector. cbn [snd].
  split.
  - destruct (0 <? d_t1 - d_t2)%float eqn:Hpos; [ discriminate | ].
    destruct (d_t1 - d_t2 <? 0)%float eqn:Hneg; [ discriminate | ].
    intros _. apply not_ltb_zero; assumption.
  - intros [Hzero | Hnan].
    + destruct (FloatOrder.eqb_true_ltb_false _ _ Hzero) as [Hnlt Hngt].
      rewrite Hnlt, Hngt. reflexivity.
    + destruct (is_nan_ltb _ 0%float Hnan) as [Hnlt Hngt].
      rewrite Hnlt, Hngt. reflexivity.
Qed.

(** X9. A reliability rate that is not a number passes Gate 2: no
    comparison holds of it, so the outcomes are reported to converge and
    the score is the weak one, 1.7, whatever the friction and the
    threshold. *)
Theorem step2_nan_rate_converges (ft : FunctionalTest) (log : list string) :
  is_nan (reliability_rate ft) = true ->
  exists (s2 : Step2Result) (log' : list string),
    _step2_same_outcome_filter ft log = (inr s2, log')
    /\ outcomes_converge s2 = true
    /\ functional_score s2 = Some 1.7%float
    /\ strength s2 = Some "Weak".
Proof.
  intros Hnan.
  destruct (is_nan_ltb _ 0.85%float Hnan) as [H85 _].
  destruct (is_nan_ltb _ 0.95%float Hnan) as [_ H95].
  destruct (is_nan_ltb _ 0.90%float Hnan) as [_ H90].
  unfold _step2_same_outcome_filter. run_engine.
  rewrite H85, H95, H90. cbn [andb].
  eexists _, _. repeat split; reflexivity.
Qed.

(** ** The analysis log *)

Lemma finalize_partial_step (score : float) (r : string) :
  step_reached (_finalize_partial_equivalent score r) = 2%Z.
Proof.
  unfold _finalize_partial_equivalent.
  destruct (score <=? 2.1)%float; [ | destruct (score <=? 2.7)%float ];
    reflexivity.
Qed.

Lemma finalize_functional_step (score : float) (r : string) :
  step_reached (_finalize_functional_equivalent score r) = 3%Z.
Proof.
  unfold _finalize_functional_equivalent.
  destruct (score <=? 0.4)%float; [ | destruct (score <=? 1.4)%float ];
    reflexivity.
Qed.

(** X10. The log tells how far the analysis went, where [step_reached]
    alone does not: after [analyze] it has 1 line when Gate 1 raised, 4
    when the result is NO_DIRECT, 5 when Gate 1 passed and no functional
    test was supplied, 10 when Gate 2 did not converge, and 16 when Gate 3
    ran; the lines of earlier calls are gone. *)
Theorem analysis_log_length
  (a b : LegalConcept) (ft : option FunctionalTest) (log : list string) :
  length (log_after a b ft log)
  = match run_analyze a b ft log with
    | inl _ => 1
    | inr res =>
        if (step_reached res =? 1)%Z then 4
        else if (step_reached res =? 2)%Z then
               match ft with
               | None => 5
               | Some _ => 10
               end
             else 16
    end.
Proof.
  unfold log_after, run_analyze, analyze, _step1_core_feature_filter,
    _step2_same_outcome_filter, _step3_perfect_substitution_filter.
  fold (shared_elements a b). run_engine.
  destruct (str_lower (regulatory_objective a)
            =? str_lower (regulatory_objective b))%string.
  2: destruct (_objectives_substantially_overlap _ _) as [e | t];
       [ reflexivity | ].
  all: destruct (shared_elements a b =? 0)%nat; cbn [andb negb];
       try destruct t; cbn [andb negb].
  all: try (destruct (3 <=? shared_elements a b)%nat;
            [ | destruct (1 <=? shared_elements a b)%nat ]).
  all: cbn [classification provisional_score step1_rationale].
  all: rewrite ?partial_is_not_no_direct, ?no_direct_is_no_direct.
  all: try reflexivity.
  all: destruct ft as [ft | ];
       [ | rewrite finalize_partial_step; reflexivity ].
  all: destruct (reliability_rate ft <? 0.85)%float;
       cbn [negb outcomes_converge]; run_engine;
       [ rewrite finalize_partial_step; reflexivity | ].
  all: destruct ((0.95 <? reliability_rate ft)%float
                 && (procedural_friction ft =? "low")%string
                 && (iteration_threshold ft =? 1)%Z);
       [ | destruct ((0.95 <? reliability_rate ft)%float
                     && (procedural_friction ft =? "high")%string);
           [ | destruct (0.90 <? reliability_rate ft)%float ] ].
  all: cbn [negb outcomes_converge functional_score step2_rationale];
       run_engine.
  all: destruct (bool_decide
                   ((list_to_set (constituent_elements a) : gset string)
                    = list_to_set (constituent_elements b))
                 && (regulatory_objective a =? regulatory_objective b)%string
                 && (procedural_friction ft =? "low")%string);
       cbn [perfect_substitution]; run_engine.
  all: rewrite ?finalize_functional_step; reflexivity.
Qed.

Lemma log_after_starts_with_header
  (a b : LegalConcept) (ft : option FunctionalTest) (log : list string) :
  exists rest : list string,
    log_after a b ft log = "=== STEP 1: PARTIAL EQUIVALENCY TEST ===" :: rest.
Proof.
  unfold log_after, analyze, _step1_core_feature_filter,
    _step2_same_outcome_filter, _step3_perfect_substitution_filter.
  fold (shared_elements a b). run_engine.
  destruct (str_lower (regulatory_objective a)
            =? str_lower (regulatory_objective b))%string.
  2: destruct (_objectives_substantially_overlap _ _) as [e | t];
       [ eexists; reflexivity | ].
  all: destruct (shared_elements a b =? 0)%nat; cbn [andb negb];
       try destruct t; cbn [andb negb].
  all: try (destruct (3 <=? shared_elements a b)%nat;
            [ | destruct (1 <=? shared_elements a b)%nat ]).
  all: cbn [classification provisional_score step1_rationale].
  all: rewrite ?partial_is_not_no_direct, ?no_direct_is_no_direct.
  all: try (eexists; reflexivity).
  all: destruct ft as [ft | ]; [ | eexists; reflexivity ].
  all: destruct (reliability_rate ft <? 0.85)%float;
       cbn [negb outcomes_converge]; run_engine;
       [ eexists; reflexivity | ].
  all: destruct ((0.95 <? reliability_rate ft)%float
                 && (procedural_friction ft =? "low")%string
                 && (iteration_threshold ft =? 1)%Z);
       [ | destruct ((0.95 <? reliability_rate ft)%float
                     && (procedural_friction ft =? "high")%string);
           [ | destruct (0.90 <? reliability_rate ft)%float ] ].
  all: cbn [negb outcomes_converge functional_score step2_rationale];
       run_engine.
  all: destruct (bool_decide
                   ((list_to_set (constituent_elements a) : gset string)
                    = list_to_set (constituent_elements b))
                 && (regulatory_objective a =? regulatory_objective b)%string
                 && (procedural_friction ft =? "low")%string);
       cbn [perfect_substitution]; run_engine.
  all: eexists; reflexivity.
Qed.

(** X11. Every call starts a fresh trace: what [analyze] returns and the
    log it leaves do not depend on the log it found, and the text
    [get_analysis_log] gives afterwards begins with the header of Step 1,
    also when [analyze] raised. *)
Theorem analysis_log_is_fresh
  (a b : LegalConcept) (ft : option FunctionalTest) (log : list string) :
  analyze a b ft log = analyze a b ft []
  /\ starts_with "=== STEP 1: PARTIAL EQUIVALENCY TEST ==="
       (get_analysis_log (log_after a b ft log)).
Proof.
  split; [ reflexivity | ].
  destruct (log_after_starts_with_header a b ft log) as [rest ->].
  unfold starts_with, get_analysis_log.
  destruct rest as [ | line rest].
  - exists "". reflexivity.
  - eexists. cbn [PyStr.join]. reflexivity.
Qed.

(** ** The finalizers on arbitrary scores *)






(** ** The words of the rationale *)

Lemma finalize_partial_at (r : string) :
  _finalize_partial_equivalent 2.0 r
  = {| distance_score := 2.0; level := PARTIAL_STRONG;
       confidence_interval := "d = 2.0-2.1";
       rationale := r +:+ " (Structural overlap but functional divergence)";
       step_reached := 2 |}
  /\ _finalize_partial_equivalent 2.5 r
     = {| distance_score := 2.5; level := PARTIAL_STANDARD;
          confidence_interval := "d = 2.2-2.7";
          rationale := r +:+ " (Structural overlap but functional divergence)";
          step_reached := 2 |}
  /\ _finalize_partial_equivalent 2.9 r
     = {| distance_score := 2.9; level := PARTIAL_WEAK;
          confidence_interval := "d = 2.8-2.9";
          rationale := r +:+ " (Structural overlap but functional divergence)";
          step_reached := 2 |}.
Proof. repeat split; reflexivity. Qed.

Lemma finalize_functional_at (r : string) :
  _finalize_functional_equivalent 0.15 r
  = {| distance_score := 0.15; level := FUNCTIONAL_STRONG;
       confidence_interval := "d = 0.1-0.4";
       rationale :=
         r +:+ " (Same practical outcome despite formal differences)";
       step_reached := 3 |}
  /\ _finalize_functional_equivalent 0.35 r
     = {| distance_score := 0.35; level := FUNCTIONAL_STRONG;
          confidence_interval := "d = 0.1-0.4";
          rationale :=
            r +:+ " (Same practical outcome despite formal differences)";
          step_reached := 3 |}
  /\ _finalize_functional_equivalent 1.0 r
     = {| distance_score := 1.0; level := FUNCTIONAL_STANDARD;
          confidence_interval := "d = 0.5-1.4";
          rationale :=
            r +:+ " (Same practical outcome despite formal differences)";
          step_reached := 3 |}
  /\ _finalize_functional_equivalent 1.7 r
     = {| distance_score := 1.7; level := FUNCTIONAL_WEAK;
          confidence_interval := "d = 1.5-1.9";
          rationale :=
            r +:+ " (Same practical outcome despite formal differences)";
          step_reached := 3 |}.
Proof. repeat split; reflexivity. Qed.

Ltac expose_finalizers :=
  repeat match goal with
    | |- context [ _finalize_partial_equivalent ?s ?r ] =>
        let H1 := fresh in let H2 := fresh in let H3 := fresh in
        destruct (finalize_partial_at r) as (H1 & H2 & H3);
        rewrite ?H1, ?H2, ?H3; clear H1 H2 H3
    | |- context [ _finalize_functional_equivalent ?s ?r ] =>
        let H1 := fresh in let H2 := fresh in
        let H3 := fresh in let H4 := fresh in
        destruct (finalize_functional_at r) as (H1 & H2 & H3 & H4);
        rewrite ?H1, ?H2, ?H3, ?H4; clear H1 H2 H3 H4
    end.

Ltac close_rationale :=
  cbn [level rationale tier_word];
  unfold is_partial_level, is_functional_level, starts_with, ends_with;
  repeat split; intros;
  repeat match goal with
    | H : _ \/ _ |- _ => destruct H
    end;
  try discriminate; try contradiction;
  try (eexists; reflexivity).

(** X13. The tier words of the gates and the levels of the finalizers
    agree.  A partial result given without a functional test starts with
    the word of its level ("Strong", "Standard" or "Weak") followed by
    " feature overlap detected ("; a functional result starts with the
    word of its level; and the rationale of a partial or functional
    result ends with the fixed remark of its finalizer. *)
Theorem rationale_names_the_tier
  (a b : LegalConcept) (ft : option FunctionalTest) (log : list string)
  (res : EquivalenceResult) :
  run_analyze a b ft log = inr res ->
  (ft = None -> is_partial_level (level res) ->
   starts_with (tier_word (level res) +:+ " feature overlap detected (")
     (rationale res))
  /\ (is_partial_level (level res) ->
      ends_with " (Structural overlap but functional divergence)"
        (rationale res))
  /\ (is_functional_level (level res) ->
      starts_with (tier_word (level res) +:+ " ") (rationale res)
      /\ ends_with " (Same practical outcome despite formal differences)"
           (rationale res)).
Proof.
  unfold run_analyze, analyze, _step1_core_feature_filter,
    _step2_same_outcome_filter, _step3_perfect_substitution_filter.
  fold (shared_elements a b). run_engine.
  destruct (str_lower (regulatory_objective a)
            =? str_lower (regulatory_objective b))%string.
  2: destruct (_objectives_substantially_overlap _ _) as [e | t];
       [ discriminate | ].
  all: destruct (shared_elements a b =? 0)%nat; cbn [andb negb];
       try destruct t; cbn [andb negb].
  all: try (destruct (3 <=? shared_elements a b)%nat;
            [ | destruct (1 <=? shared_elements a b)%nat ]).
  all: cbn [classification provisional_score step1_rationale].
  all: rewrite ?partial_is_not_no_direct, ?no_direct_is_no_direct.
  all: try (intros [= <-]; close_rationale; fail).
  all: destruct ft as [ft | ];
       [ | expose_finalizers; intros [= <-]; close_rationale; fail ].
  all: destruct (reliability_rate ft <? 0.85)%float;
       cbn [negb outcomes_converge]; run_engine;
       [ expose_finalizers; intros [= <-]; close_rationale; fail | ].
  all: destruct ((0.95 <? reliability_rate ft)%float
                 && (procedural_friction ft =? "low")%string
                 && (iteration_threshold ft =? 1)%Z);
       [ | destruct ((0.95 <? reliability_rate ft)%float
                     && (procedural_friction ft =? "high")%string);
           [ | destruct (0.90 <? reliability_rate ft)%float ] ].
  all: cbn [negb outcomes_converge functional_score step2_rationale];
       run_engine.
  all: destruct (bool_decide
                   ((list_to_set (constituent_elements a) : gset string)
                    = list_to_set (constituent_elements b))
                 && (regulatory_objective a =? regulatory_objective b)%string
                 && (procedural_friction ft =? "low")%string);
       cbn [perfect_substitution]; run_engine.
  all: expose_finalizers; intros [= <-]; close_rationale.
Qed.

(** ** Gate 1 read off the inputs *)

(** Objectives without a common token, one of them with a token at least,
    do not overlap. *)
Lemma overlap_disjoint_tokens (obj_a obj_b : string) :
  keywords obj_a ∩ keywords obj_b = ∅ ->
  keywords obj_a <> ∅ \/ keywords obj_b <> ∅ ->
  _objectives_substantially_overlap obj_a obj_b = inr false.
Proof.
  unfold keywords, _objectives_substantially_overlap.
  set (ka := list_to_set (str_split (str_lower obj_a)) : gset string).
  set (kb := list_to_set (str_split (str_lower obj_b)) : gset string).
  intros Hdisjoint Hsome. rewrite Hdisjoint, size_empty.
  assert (Hpos : Nat.max (size ka) (size kb) <> 0).
  { intros Hzero.
    assert (Ha : size ka = 0) by lia. assert (Hb : size kb = 0) by lia.
    apply size_empty_iff in Ha, Hb.
    apply leibniz_equiv in Ha, Hb. tauto. }
  unfold PyFloat.int_true_div.
  destruct (Z.of_nat (Nat.max (size ka) (size kb))) as [ | p | p] eqn:En;
    [ lia | reflexivity | lia ].
Qed.

(** X14. Two concepts without a common constituent element and without a
    common objective token, one of the objectives holding a token at
    least, are classified NO_DIRECT with distance 3.0 at step 1, whatever
    functional test comes with them. *)
Theorem analyze_no_direct_on_disjoint_inputs
  (a b : LegalConcept) (ft : option FunctionalTest) (log : list string) :
  shared_elements a b = 0 ->
  keywords (regulatory_objective a) ∩ keywords (regulatory_objective b) = ∅ ->
  keywords (regulatory_objective a) <> ∅
  \/ keywords (regulatory_objective b) <> ∅ ->
  exists res : EquivalenceResult,
    run_analyze a b ft log = inr res
    /\ verdict res = (NO_DIRECT, 3.0%float, 1%Z)
    /\ confidence_interval res = "d = 3.0".
Proof.
  intros Hshared Hdisjoint Hsome.
  assert (Hlower : str_lower (regulatory_objective a)
                   <> str_lower (regulatory_objective b)).
  { intros Heq. unfold keywords in Hdisjoint, Hsome.
    rewrite Heq in Hdisjoint, Hsome.
    assert (Hempty : (list_to_set
                        (str_split (str_lower (regulatory_objective b)))
                      : gset string) = ∅).
    { rewrite <- Hdisjoint. symmetry. apply leibniz_equiv.
      apply (idemp (∩)). }
    tauto. }
  assert (Hempty : (list_to_set (constituent_elements a) : gset string)
                   ∩ list_to_set (constituent_elements b) = ∅).
  { apply leibniz_equiv, size_empty_iff. exact Hshared. }
  destruct (step1_no_direct a b [] Hempty Hlower
              (overlap_disjoint_tokens _ _ Hdisjoint Hsome))
    as (s1 & l1 & Hrun & Hc).
  unfold run_analyze, analyze. run_engine.
  rewrite Hrun, Hc, no_direct_is_no_direct.
  eexists. repeat split; reflexivity.
Qed.

(** X15. Objectives that are equal up to the case of their letters always
    pass Gate 1: [analyze] returns, never raises, and its result is not
    NO_DIRECT; without a functional test and without a shared element the
    result is PARTIAL_WEAK at distance 2.9. *)
Theorem analyze_on_case_equal_objectives
  (a b : LegalConcept) (ft : option FunctionalTest) (log : list string) :
  str_lower (regulatory_objective a) = str_lower (regulatory_objective b) ->
  exists res : EquivalenceResult,
    run_analyze a b ft log = inr res
    /\ level res <> NO_DIRECT
    /\ (ft = None -> shared_elements a b = 0 ->
        verdict res = (PARTIAL_WEAK, 2.9%float, 2%Z)).
Proof.
  intros Hlower.
  assert (Hraise : forall e, run_analyze a b ft log <> inl e).
  { intros e He. apply analyze_raises_with_teleology in He.
    unfold teleology in He. apply String.eqb_eq in Hlower.
    rewrite Hlower in He. discriminate He. }
  destruct (run_analyze a b ft log) as [e | res] eqn:Hrun;
    [ exfalso; apply (Hraise e); reflexivity | ].
  exists res. split; [ reflexivity | ].
  destruct (step1_same_objective a b [] Hlower) as (s1 & l1 & Hstep & Hc).
  revert Hrun.
  unfold run_analyze, analyze. run_engine.
  rewrite Hstep, Hc, partial_is_not_no_direct.
  pose proof (step1_inv a b [] l1 s1 Hstep) as Hinv.
  split.
  - intros Hlevel. revert Hrun. 
    destruct ft as [t | ].
    + destruct (_step2_same_outcome_filter t l1) as [[e | s2] l2];
        [ discriminate | ].
      destruct (negb (outcomes_converge s2)).
      { intros [= <-].
        destruct (partial_level_not_total _
                    (finalize_partial_level (provisional_score s1)
                       (step2_rationale s2))) as [_ H].
        apply H, Hlevel. }
      destruct (functional_score s2) as [f | ]; [ | discriminate ].
      destruct (_step3_perfect_substitution_filter a b t l2)
        as [[e | s3] l3]; [ discriminate | ].
      destruct (perfect_substitution s3); intros [= <-];
        [ discriminate Hlevel | ].
      destruct (functional_level_not_total _
                  (finalize_functional_level f (step2_rationale s2)))
        as [_ H].
      apply H, Hlevel.
    + intros [= <-].
      destruct (partial_level_not_total _
                  (finalize_partial_level (provisional_score s1)
                     (step1_rationale s1))) as [_ H].
      apply H, Hlevel.
  - intros -> Hzero. revert Hrun. intros [= <-].
    destruct Hinv as [(Hnd & _) | (_ & [(Hn & _) | [(Hn & _) | (_ & ->)]])];
      [ congruence | lia | lia | ].
    apply finalize_partial_verdict.
Qed.

End EngineProperties.

(** ** Concrete runs

    The runs below are on ASCII text, where the ASCII functions of
    [PyStr] are the interpreter's. *)

#[global] Existing Instance ascii_ops.

Lemma distance_score_in_level_range_witness :
  exists res : EquivalenceResult,
    run_analyze amparo tutela (Some (sample_test 0.96 "low" 1)) [] = inr res
    /\ score_in_level_range (level res) (distance_score res).
Proof.
  eexists. split.
  - reflexivity.
  - apply (distance_score_in_level_range amparo tutela
             (Some (sample_test 0.96 "low" 1)) []).
    reflexivity.
Defined.

Lemma confidence_interval_determined_by_level_witness :
  exists res : EquivalenceResult,
    run_analyze amparo judicial_review None [] = inr res
    /\ (confidence_interval res = level_interval PARTIAL_STANDARD
        <-> level res = PARTIAL_STANDARD).
Proof.
  eexists. split.
  - reflexivity.
  - apply (confidence_interval_determined_by_level amparo judicial_review
             None []).
    reflexivity.
Defined.

Lemma analyze_no_direct_witness :
  exists res : EquivalenceResult,
    run_analyze amparo consideration (Some (sample_test 0.99 "low" 1)) []
    = inr res
    /\ level res = NO_DIRECT
    /\ distance_score res = 3.0%float
    /\ confidence_interval res = "d = 3.0"
    /\ step_reached res = 1%Z.
Proof.
  apply (analyze_no_direct amparo consideration
           (Some (sample_test 0.99 "low" 1)) []).
  - vm_compute. reflexivity.
  - vm_compute. discriminate.
  - vm_compute. reflexivity.
Defined.

Lemma analyze_total_on_equal_concepts_witness :
  exists res : EquivalenceResult,
    run_analyze amparo amparo (Some (sample_test 0.97 "low" 1)) [] = inr res
    /\ level res = TOTAL
    /\ distance_score res = 0.0%float
    /\ step_reached res = 3%Z.
Proof.
  apply (analyze_total_on_equal_concepts amparo amparo
           (sample_test 0.97 "low" 1) []); reflexivity.
Defined.

Lemma analyze_functional_strong_on_distinct_objectives_witness :
  exists res : EquivalenceResult,
    run_analyze amparo tutela (Some (sample_test 0.96 "low" 1)) [] = inr res
    /\ level res = FUNCTIONAL_STRONG
    /\ confidence_interval res = "d = 0.1-0.4"
    /\ distance_score res = 0.15%float
    /\ level res <> TOTAL.
Proof.
  apply (analyze_functional_strong_on_distinct_objectives amparo tutela
           {| classification := "PARTIAL";
              provisional_score := 2.0;
              morphology_match := Some 3;
              teleology_match := Some true;
              step1_rationale :=
                "Strong feature overlap detected (3 structural + teleological alignment)" |}
           (sample_test 0.96 "low" 1) []).
  - vm_compute. reflexivity.
  - reflexivity.
  - vm_compute. discriminate.
  - reflexivity.
  - reflexivity.
  - reflexivity.
Defined.

Lemma analyze_partial_without_functional_test_witness :
  exists res : EquivalenceResult,
    run_analyze amparo ombudsman None [] = inr res
    /\ step_reached res = 2%Z
    /\ is_partial_level (level res)
    /\ (3 <= shared_elements amparo ombudsman ->
        level res = PARTIAL_STRONG /\ distance_score res = 2.0%float)
    /\ (shared_elements amparo ombudsman = 1
        \/ shared_elements amparo ombudsman = 2 ->
        level res = PARTIAL_STANDARD /\ distance_score res = 2.5%float)
    /\ (shared_elements amparo ombudsman = 0 ->
        level res = PARTIAL_WEAK /\ distance_score res = 2.9%float).
Proof.
  apply (analyze_partial_without_functional_test amparo ombudsman
           {| classification := "PARTIAL";
              provisional_score := 2.9;
              morphology_match := Some 0;
              teleology_match := Some true;
              step1_rationale :=
                "Weak feature overlap detected (0 structural + teleological alignment)" |}
           []).
  - vm_compute. reflexivity.
  - discriminate.
Defined.

(** C7. The claim that [analyze] never raises does not hold of the code:
    on two objectives that differ in lower case and hold no token, the
    overlap heuristic divides by zero, and [analyze] raises
    ZeroDivisionError after the first line of the log, with or without a
    functional test. *)
Theorem analyze_raises_zero_division :
  _objectives_substantially_overlap "" " " = inl ZeroDivisionError
  /\ analyze blank_objective space_objective None []
     = (inl ZeroDivisionError, ["=== STEP 1: PARTIAL EQUIVALENCY TEST ==="])
  /\ run_analyze blank_objective space_objective
       (Some (sample_test 0.97 "low" 1)) []
     = inl ZeroDivisionError.
Proof. repeat split; vm_compute; reflexivity. Qed.

(** C3. The claim fails on the code, by the slip of C7.  [blank_writ] and
    [space_decree] share no element, their objectives are not equal in
    lower case and the heuristic does not find them overlapping; yet
    [analyze] does not return NO_DIRECT: it raises ZeroDivisionError, with
    or without a functional test. *)
Theorem analyze_no_direct_raises_on_blank_objectives :
  (list_to_set (constituent_elements blank_writ) : gset string)
    ∩ list_to_set (constituent_elements space_decree) = ∅
  /\ str_lower (regulatory_objective blank_writ)
     <> str_lower (regulatory_objective space_decree)
  /\ _objectives_substantially_overlap
       (regulatory_objective blank_writ) (regulatory_objective space_decree)
     <> inr true
  /\ run_analyze blank_writ space_decree None [] = inl ZeroDivisionError
  /\ run_analyze blank_writ space_decree
       (Some (sample_test 0.97 "low" 1)) []
     = inl ZeroDivisionError.
Proof.
  split; [ apply (bool_decide_unpack _); vm_compute; exact I | ].
  repeat split; vm_compute; try reflexivity; discriminate.
Qed.

(** C5. The claim fails on the code, by the slip of C7.
    [blank_objective] and [space_objective] share an element, which is
    what the claim asks of a pair that passes Gate 1, and their objectives
    are not the same string; tested with reliability 0.96, low friction
    and a threshold of 1 they are not classified FUNCTIONAL_STRONG:
    [analyze] raises ZeroDivisionError in Gate 1. *)
Theorem analyze_functional_strong_raises_on_blank_objectives :
  shared_elements blank_objective space_objective = 1
  /\ regulatory_objective blank_objective
     <> regulatory_objective space_objective
  /\ run_analyze blank_objective space_objective
       (Some (sample_test 0.96 "low" 1)) []
     = inl ZeroDivisionError.
Proof. repeat split; vm_compute; try reflexivity; discriminate. Qed.

(** C6. The claim fails on the code, by the slip of C7.
    [blank_objective] and [space_objective] share one element and are
    not classified NO_DIRECT; without a functional test the claim gives
    them PARTIAL_STANDARD at 2.5, and [analyze] returns nothing: it raises
    ZeroDivisionError in Gate 1, after the first line of the log. *)
Theorem analyze_partial_raises_on_blank_objectives :
  shared_elements blank_objective space_objective = 1
  /\ analyze blank_objective space_objective None []
     = (inl ZeroDivisionError, ["=== STEP 1: PARTIAL EQUIVALENCY TEST ==="])
  /\ (forall res : EquivalenceResult,
        run_analyze blank_objective space_objective None [] <> inr res).
Proof. repeat split; vm_compute; try reflexivity; discriminate. Qed.

Lemma step2_score_precedence_witness :
  exists (s2 : Step2Result) (log' : list string),
    _step2_same_outcome_filter (sample_test 0.97 "standard" 1) []
    = (inr s2, log')
    /\ outcomes_converge s2 = true
    /\ functional_score s2 = Some 1.0%float.
Proof.
  destruct (step2_score_precedence (sample_test 0.97 "standard" 1) [] eq_refl)
    as (s2 & log' & score & Hrun & Hconv & Hscore & _ & _ & _ & _ & Hstd & _).
  exists s2, log'. repeat split; try assumption.
  rewrite Hscore. f_equal. apply Hstd; [ reflexivity | left; reflexivity ].
Defined.

Lemma analyze_nonconvergent_partial_witness :
  exists res : EquivalenceResult,
    run_analyze amparo tutela (Some (sample_test (-0.5) "high" 3)) [] = inr res
    /\ is_partial_level (level res)
    /\ step_reached res = 2%Z
    /\ run_analyze amparo tutela (Some (sample_test (-0.5) "low" 1)) []
       = inr res.
Proof.
  destruct (analyze_nonconvergent_partial (ops := ascii_ops) amparo tutela
              {| classification := "PARTIAL";
                 provisional_score := 2.0;
                 morphology_match := Some 3;
                 teleology_match := Some true;
                 step1_rationale :=
                   "Strong feature overlap detected (3 structural + teleological alignment)" |}
              (sample_test (-0.5) "high" 3) [] eq_refl eq_refl eq_refl)
    as (_ & res & Hrun & _ & _ & Hlevel & Hstep & Hany & _).
  exists res.
  split; [ exact Hrun | ]. split; [ exact Hlevel | ]. split; [ exact Hstep | ].
  apply Hany. reflexivity.
Defined.

(** C8, as the specification words it, fails: two tests below the
    threshold that differ in nothing but the friction leave different
    logs behind. *)
Lemma analysis_log_records_friction :
  (reliability_rate (sample_test 0.80 "low" 1) <? 0.85)%float = true
  /\ log_after amparo tutela (Some (sample_test 0.80 "low" 1)) []
     <> log_after amparo tutela (Some (sample_test 0.80 "high" 1)) [].
Proof. split; [ reflexivity | vm_compute; discriminate ]. Qed.

Lemma analyze_reads_set_and_objective_witness :
  analyze amparo tutela (Some (sample_test 0.96 "low" 1)) []
  = analyze amparo_recast tutela (Some (sample_test 0.96 "low" 1)) []
  /\ analyze tutela amparo (Some (sample_test 0.96 "low" 1)) []
     = analyze tutela amparo_recast (Some (sample_test 0.96 "low" 1)) [].
Proof.
  apply (analyze_reads_set_and_objective amparo amparo_recast tutela
           (Some (sample_test 0.96 "low" 1)) []).
  - apply (bool_decide_unpack _). vm_compute. exact I.
  - reflexivity.
Defined.

Lemma analyze_verdict_in_table_witness :
  exists res : EquivalenceResult,
    run_analyze amparo tutela (Some (sample_test 0.97 "high" 1)) [] = inr res
    /\ In (verdict res) verdict_table.
Proof.
  eexists. split.
  - reflexivity.
  - apply (analyze_verdict_in_table amparo tutela
             (Some (sample_test 0.97 "high" 1)) []).
    reflexivity.
Defined.

Lemma functional_test_never_increases_distance_witness :
  exists res0 res1 : EquivalenceResult,
    run_analyze amparo ombudsman None [] = inr res0
    /\ run_analyze amparo ombudsman (Some (sample_test 0.88 "high" 2)) []
       = inr res1
    /\ (distance_score res1 <=? distance_score res0)%float = true.
Proof.
  eexists _, _.
  split; [ vm_compute; reflexivity | ].
  split; [ vm_compute; reflexivity | ].
  apply (functional_test_never_increases_distance amparo ombudsman
           (sample_test 0.88 "high" 2) [] []); vm_compute; reflexivity.
Defined.

Lemma step2_nan_rate_converges_witness :
  exists (s2 : Step2Result) (log' : list string),
    _step2_same_outcome_filter (sample_test nan "low" 1) [] = (inr s2, log')
    /\ outcomes_converge s2 = true
    /\ functional_score s2 = Some 1.7%float
    /\ strength s2 = Some "Weak".
Proof.
  apply (step2_nan_rate_converges (sample_test nan "low" 1) []).
  reflexivity.
Defined.


Lemma rationale_names_the_tier_witness :
  exists res : EquivalenceResult,
    run_analyze amparo judicial_review None [] = inr res
    /\ level res = PARTIAL_STANDARD
    /\ starts_with "Standard feature overlap detected (" (rationale res).
Proof.
  eexists. split; [ vm_compute; reflexivity | ].
  split; [ reflexivity | ].
  apply (rationale_names_the_tier amparo judicial_review None []).
  - vm_compute. reflexivity.
  - reflexivity.
  - right. left. reflexivity.
Defined.

Lemma analyze_no_direct_on_disjoint_inputs_witness :
  exists res : EquivalenceResult,
    run_analyze amparo consideration (Some (sample_test 0.99 "low" 1)) []
    = inr res
    /\ verdict res = (NO_DIRECT, 3.0%float, 1%Z)
    /\ confidence_interval res = "d = 3.0".
Proof.
  apply (analyze_no_direct_on_disjoint_inputs amparo consideration
           (Some (sample_test 0.99 "low" 1)) []).
  - vm_compute. reflexivity.
  - apply (bool_decide_unpack _). vm_compute. exact I.
  - left. apply (bool_decide_unpack _). vm_compute. exact I.
Defined.

Lemma analyze_on_case_equal_objectives_witness :
  exists res : EquivalenceResult,
    run_analyze amparo tutela None [] = inr res
    /\ level res <> NO_DIRECT.
Proof.
  destruct (analyze_on_case_equal_objectives (ops := ascii_ops)
              amparo tutela None [] eq_refl)
    as (res & Hrun & Hlevel & _).
  exists res. split; assumption.
Defined.
